(** * gmat-app: the adaptive quiz of [app.py]

    A shallow embedding of the logic of [app.py]: the difficulty ladder
    ([adjust_difficulty]), the parser of generated text ([parse_response]),
    question generation ([generate_question]) and the Streamlit script that
    drives one session (initialisation of the session state, the "Start
    Test", "Submit Answer" and "Restart Test" handlers).

    Python values are modelled as follows.
    - [str] is a list of Unicode code points ([pystr]); literals are written
      [lit "..."].
    - [int] is [Z].
    - [dict] is a stdpp [gmap]; for the session state, whose keys are fixed,
      a record of optional fields (a field is [None] when the key is absent).
    - An operation that can raise returns a [result]. *)

From Stdlib Require Import ZArith List Ascii String Bool Lia.
From stdpp Require Import base option list gmap fin_maps sorting.

Import ListNotations.
Local Open Scope Z_scope.

(** ** Exceptions *)

Inductive exn : Set := IndexError | KeyError | ValueError | AttributeError.

Inductive result (A : Type) : Type :=
| Ok (a : A)
| Raise (e : exn).

Arguments Ok {A} a.
Arguments Raise {A} e.

Definition bind {A B : Type} (m : result A) (k : A -> result B) : result B :=
  match m with
  | Ok a => k a
  | Raise e => Raise e
  end.

Notation "'do' x <- m ; k" := (bind m (fun x => k))
  (at level 10, x name, m at level 100, k at level 200,
   format "'[v' 'do'  x  <-  m ; '/' k ']'").

(** ** Python strings *)

Module Py.

(** A character is its code point. *)
Definition char : Set := N.
Definition pystr : Set := list char.

Fixpoint lit (s : string) : pystr :=
  match s with
  | EmptyString => []
  | String a s' => N_of_ascii a :: lit s'
  end.

(** [a == b] on strings. *)
Definition eqb (a b : pystr) : bool := bool_decide (a = b).

(** [s.startswith(p)] *)
Fixpoint startswith (p s : pystr) : bool :=
  match p, s with
  | [], _ => true
  | _ :: _, [] => false
  | a :: p', b :: s' => N.eqb a b && startswith p' s'
  end.

(** [s.split(sep)] for a separator of one character. *)
Fixpoint split (sep : char) (s : pystr) : list pystr :=
  match s with
  | [] => [[]]
  | c :: s' =>
      if N.eqb c sep then [] :: split sep s'
      else match split sep s' with
           | [] => [[c]]
           | h :: t => (c :: h) :: t
           end
  end.

(** [s.replace(old, new)] for a non-empty [old]: the occurrences of [old]
    are found from left to right and do not overlap.  [skip] counts the
    characters of the occurrence being replaced that are still to be
    passed over. *)
Fixpoint replace_from (skip : nat) (old new s : pystr) : pystr :=
  match s with
  | [] => []
  | c :: s' =>
      match skip with
      | S k => replace_from k old new s'
      | O =>
          if startswith old s
          then new ++ replace_from (Nat.pred (length old)) old new s'
          else c :: replace_from O old new s'
      end
  end.

(** [s.replace(old, new)]; for an empty [old] Python puts [new] before
    every character and at the end. *)
Definition replace (old new s : pystr) : pystr :=
  match old with
  | [] => new ++ concat (map (fun c => c :: new) s)
  | _ :: _ => replace_from O old new s
  end.

(** [c.isspace()]: the code points Python treats as whitespace. *)
Definition isspace (c : char) : bool :=
  let c := c : N in
  (((9 <=? c) && (c <=? 13)) || ((28 <=? c) && (c <=? 32))
   || (c =? 133) || (c =? 160) || (c =? 5760)
   || ((8192 <=? c) && (c <=? 8202))
   || (c =? 8232) || (c =? 8233) || (c =? 8239) || (c =? 8287)
   || (c =? 12288))%N.

Fixpoint lstrip (s : pystr) : pystr :=
  match s with
  | [] => []
  | c :: s' => if isspace c then lstrip s' else s
  end.

Definition rstrip (s : pystr) : pystr := rev (lstrip (rev s)).

(** [s.strip()] *)
Definition strip (s : pystr) : pystr := rstrip (lstrip s).

(** [s[0]]: a string of one character. *)
Definition first (s : pystr) : result pystr :=
  match s with
  | [] => Raise IndexError
  | c :: _ => Ok [c]
  end.

(** [s[n:]] for [n >= 0]. *)
Definition from (n : nat) (s : pystr) : pystr := drop n s.

(** [not s] *)
Definition is_empty (s : pystr) : bool :=
  match s with
  | [] => true
  | _ :: _ => false
  end.

(** [l[i]] on a list, with Python's negative indices. *)
Definition getitem {A : Type} (l : list A) (i : Z) : result A :=
  let n := Z.of_nat (length l) in
  let j := if i <? 0 then i + n else i in
  if (j <? 0) || (n <=? j) then Raise IndexError
  else match l !! Z.to_nat j with
       | Some x => Ok x
       | None => Raise IndexError
       end.

(** [l.index(x)] *)
Fixpoint index (x : pystr) (l : list pystr) : result Z :=
  match l with
  | [] => Raise ValueError
  | y :: l' => if eqb y x then Ok 0 else do i <- index x l'; Ok (i + 1)
  end.

(** [d[k]] on a dict. *)
Definition lookup_key {V : Type} (d : gmap pystr V) (k : pystr) : result V :=
  match d !! k with
  | Some v => Ok v
  | None => Raise KeyError
  end.

End Py.

Import Py.

(** ** Global settings (section 2 of [app.py]) *)

Definition TOTAL_QUESTIONS : Z := 10.

Definition difficulty_levels : list pystr :=
  [lit "easy"; lit "medium"; lit "hard"].

Definition scoring : gmap pystr Z :=
  <[lit "hard" := 3]> (<[lit "medium" := 2]> (<[lit "easy" := 1]> ∅)).

(** ** Helper functions (section 3 of [app.py]) *)

Definition adjust_difficulty (current_difficulty : pystr) (correct : bool)
  : result pystr :=
  do index <- Py.index current_difficulty difficulty_levels;
  if correct
  then getitem difficulty_levels
         (Z.min (index + 1) (Z.of_nat (length difficulty_levels) - 1))
  else getitem difficulty_levels (Z.max (index - 1) 0).

(** The value [parse_response] returns: a dict with the keys ["question"],
    ["options"] and ["correct_answer"]. *)
Record Question : Type := mkQuestion {
  question : pystr;
  options : gmap pystr pystr;
  correct_answer : pystr
}.

(** The three local variables of [parse_response] that the loop updates. *)
Record parse_vars : Type := mkVars {
  v_question : pystr;
  v_options : gmap pystr pystr;
  v_correct : pystr
}.

Definition vars0 : parse_vars :=
  {| v_question := []; v_options := ∅; v_correct := [] |}.

Definition is_option_line (line : pystr) : bool :=
  startswith (lit "A)") line || startswith (lit "B)") line
  || startswith (lit "C)") line || startswith (lit "D)") line
  || startswith (lit "E)") line.

(** The body of the loop [for line in lines]. *)
Definition parse_line (v : parse_vars) (line : pystr) : result parse_vars :=
  if startswith (lit "Question:") line then
    Ok {| v_question := strip (replace (lit "Question:") [] line);
          v_options := v_options v;
          v_correct := v_correct v |}
  else if is_option_line line then
    do letter <- Py.first line;
    let option_text := strip (from 2 line) in
    Ok {| v_question := v_question v;
          v_options := <[letter := option_text]> (v_options v);
          v_correct := v_correct v |}
  else if startswith (lit "Correct Answer:") line then
    Ok {| v_question := v_question v;
          v_options := v_options v;
          v_correct := strip (replace (lit "Correct Answer:") [] line) |}
  else Ok v.

Fixpoint parse_lines (lines : list pystr) (v : parse_vars) : result parse_vars :=
  match lines with
  | [] => Ok v
  | line :: rest => do v' <- parse_line v line; parse_lines rest v'
  end.

(** The fallback of lines 75 to 77. *)
Definition fallback_question : Question :=
  {| question := lit "What is 2 + 2?";
     options := <[lit "E" := lit "7"]> (<[lit "D" := lit "6"]>
                (<[lit "C" := lit "5"]> (<[lit "B" := lit "4"]>
                (<[lit "A" := lit "3"]> ∅))));
     correct_answer := lit "B" |}.

(** The condition of line 73. *)
Definition rejected (v : parse_vars) : bool :=
  is_empty (v_question v) || (Z.of_nat (size (v_options v)) <? 5)
  || is_empty (v_correct v).

(** Lines 59 to 78: [parse_response] from the generated text on. *)
Definition parse_text (text : pystr) : result Question :=
  let lines := split 10%N text in
  do v <- parse_lines lines vars0;
  if rejected v then Ok fallback_question
  else Ok {| question := v_question v;
             options := v_options v;
             correct_answer := v_correct v |}.

(** The argument of [parse_response]: a list of dicts. *)
Definition response : Type := list (gmap pystr pystr).

Definition parse_response (r : response) : result Question :=
  do d <- getitem r 0;
  do text <- lookup_key d (lit "generated_text");
  parse_text text.

(** What the text generation pipeline returns for a generated [text]. *)
Definition generated (text : pystr) : response :=
  [ <[lit "generated_text" := text]> ∅ ].

Definition nl : pystr := [10%N].

(** [generate_question]: the prompt is an f-string around [difficulty];
    [model] is the text generation pipeline, an external collaborator. *)
Definition generate_question (model : pystr -> response) (difficulty : pystr)
  : result Question :=
  let prompt :=
    lit "Generate a GMAT-style quantitative problem with a " ++ difficulty
    ++ lit " difficulty level. "
    ++ lit "Provide 5 answer choices labeled A) through E) and indicate the correct answer using 'Correct Answer: [letter]'." in
  let response := model prompt in
  parse_response response.

(** The pipeline returns a list of one dict that holds the generated text
    under ["generated_text"]; [generate] is what the language model writes
    for a prompt. *)
Definition pipeline (generate : pystr -> pystr) : pystr -> response :=
  fun prompt => generated (generate prompt).

(** ** Session state *)

(** One row of [st.session_state.questions]. *)
Record entry : Type := mkEntry {
  e_Question : pystr;
  e_Your_Answer : pystr;
  e_Correct_Answer : pystr;
  e_Difficulty : pystr;
  e_Points_Awarded : Z;
  e_Result : pystr
}.

(** [st.session_state]: a field is [None] when its key is absent. *)
Record session_state : Type := mkSession {
  started : option bool;
  current_question : option Z;
  score : option Z;
  current_difficulty : option pystr;
  questions : option (gmap Z entry);
  current_question_data : option Question
}.

(** The session state with no key: a new session, or one whose keys were
    all deleted. *)
Definition no_keys : session_state :=
  {| started := None; current_question := None; score := None;
     current_difficulty := None; questions := None;
     current_question_data := None |}.

(** [st.session_state.key]: reading an absent key raises. *)
Definition attr {A : Type} (field : option A) : result A :=
  match field with
  | Some a => Ok a
  | None => Raise AttributeError
  end.

(** [if key not in st.session_state: st.session_state.key = value] *)
Definition setdefault {A : Type} (field : option A) (value : A) : option A :=
  match field with
  | Some a => Some a
  | None => Some value
  end.

(** Lines 23 to 32. *)
Definition init_session_state (s : session_state) : session_state :=
  {| started := setdefault (started s) false;
     current_question := setdefault (current_question s) 0;
     score := setdefault (score s) 0;
     current_difficulty := setdefault (current_difficulty s) (lit "medium");
     questions := setdefault (questions s) ∅;
     current_question_data := current_question_data s |}.

Definition set_started (s : session_state) (v : option bool) :=
  {| started := v; current_question := current_question s; score := score s;
     current_difficulty := current_difficulty s; questions := questions s;
     current_question_data := current_question_data s |}.

Definition set_current_question (s : session_state) (v : option Z) :=
  {| started := started s; current_question := v; score := score s;
     current_difficulty := current_difficulty s; questions := questions s;
     current_question_data := current_question_data s |}.

Definition set_score (s : session_state) (v : option Z) :=
  {| started := started s; current_question := current_question s; score := v;
     current_difficulty := current_difficulty s; questions := questions s;
     current_question_data := current_question_data s |}.

Definition set_current_difficulty (s : session_state) (v : option pystr) :=
  {| started := started s; current_question := current_question s;
     score := score s; current_difficulty := v; questions := questions s;
     current_question_data := current_question_data s |}.

Definition set_questions (s : session_state) (v : option (gmap Z entry)) :=
  {| started := started s; current_question := current_question s;
     score := score s; current_difficulty := current_difficulty s;
     questions := v; current_question_data := current_question_data s |}.

Definition set_current_question_data (s : session_state) (v : option Question) :=
  {| started := started s; current_question := current_question s;
     score := score s; current_difficulty := current_difficulty s;
     questions := questions s; current_question_data := v |}.

(** ** The Streamlit script (section 4 of [app.py]) *)

(** The button whose click started this run of the script, if any:
    [st.button(label)] is true only in that run and only for that button. *)
Inductive button : Set := NoButton | StartTest | SubmitAnswer | RestartTest.

Definition button_eqb (a b : button) : bool :=
  match a, b with
  | NoButton, NoButton | StartTest, StartTest
  | SubmitAnswer, SubmitAnswer | RestartTest, RestartTest => true
  | _, _ => false
  end.

(** What a run of the script receives from outside: the click, the value
    of the radio widget and the behaviour of the model. *)
Record input : Type := mkInput {
  click : button;
  user_answer : pystr;
  model : pystr -> response
}.

Definition st_button (inp : input) (b : button) : bool :=
  button_eqb (click inp) b.

(** [scoring[current_difficulty] if is_correct else 0] *)
Definition points_awarded (s : session_state) (is_correct : bool) : result Z :=
  if is_correct
  then do d <- attr (current_difficulty s); lookup_key scoring d
  else Ok 0.

(** Lines 123 to 144: the body of [if st.button("Submit Answer")]. *)
Definition submit_answer (qdata : Question) (user_answer : pystr)
    (s : session_state) : result session_state :=
  let correct := correct_answer qdata in
  let is_correct := Py.eqb user_answer correct in
  do points <- points_awarded s is_correct;
  do sc <- attr (score s);
  let s := set_score s (Some (sc + points)) in
  do d <- attr (current_difficulty s);
  let entry :=
    {| e_Question := question qdata;
       e_Your_Answer := user_answer;
       e_Correct_Answer := correct;
       e_Difficulty := d;
       e_Points_Awarded := points;
       e_Result := if is_correct then lit "Correct" else lit "Incorrect" |} in
  do qs <- attr (questions s);
  do cq <- attr (current_question s);
  let s := set_questions s (Some (<[cq + 1 := entry]> qs)) in
  do d <- attr (current_difficulty s);
  do d' <- adjust_difficulty d is_correct;
  let s := set_current_difficulty s (Some d') in
  do cq <- attr (current_question s);
  let s := set_current_question s (Some (cq + 1)) in
  do _ <- attr (current_question_data s);
  Ok (set_current_question_data s None).

(** Lines 160 and 161: every key is deleted. *)
Definition restart_test (s : session_state) : session_state := no_keys.

(** One run of the script from top to bottom.  The boolean tells whether
    the run ended in [st.experimental_rerun()]. *)
Definition run_once (inp : input) (s : session_state)
  : result (session_state * bool) :=
  let s := init_session_state s in
  do st <- attr (started s);
  if negb st && st_button inp StartTest then
    Ok (set_started s (Some true), true)
  else
  do st <- attr (started s);
  if st then
    do cq <- attr (current_question s);
    if cq <? TOTAL_QUESTIONS then
      do s <- match current_question_data s with
              | Some _ => Ok s
              | None =>
                  do d <- attr (current_difficulty s);
                  do q <- generate_question (model inp) d;
                  Ok (set_current_question_data s (Some q))
              end;
      do qdata <- attr (current_question_data s);
      if st_button inp SubmitAnswer then
        do s <- submit_answer qdata (user_answer inp) s;
        Ok (s, true)
      else Ok (s, false)
    else
      if st_button inp RestartTest then Ok (restart_test s, true)
      else Ok (s, false)
  else Ok (s, false).

(** A click is gone in the run that a rerun starts. *)
Definition no_click (inp : input) : input :=
  {| click := NoButton; user_answer := user_answer inp; model := model inp |}.

(** What one interaction does to the session state: the run it triggers
    and, when that run asks for it, the rerun. *)
Definition script (inp : input) (s : session_state) : result session_state :=
  do r <- run_once inp s;
  if snd r then
    do r' <- run_once (no_click inp) (fst r);
    Ok (fst r')
  else Ok (fst r).

(** * Vocabulary of the properties *)

(** [old in s] *)
Fixpoint occurs (old s : pystr) : bool :=
  startswith old s || match s with
                      | [] => false
                      | _ :: s' => occurs old s'
                      end.

(** The five option letters. *)
Definition letters : list pystr :=
  [lit "A"; lit "B"; lit "C"; lit "D"; lit "E"].

Definition letter_set : gset pystr := list_to_set letters.

(** The marker of an option letter: the letter and a closing parenthesis. *)
Definition marker (letter : pystr) : pystr := letter ++ lit ")".

(** A line the loop has no branch for. *)
Definition unmarked (line : pystr) : bool :=
  negb (startswith (lit "Question:") line) && negb (is_option_line line)
  && negb (startswith (lit "Correct Answer:") line).

(** The validly parsed question of a text: the variables after the loop
    pass the test of line 73 and are returned as they are. *)
Definition parsed_as (text : pystr) (q : Question) : Prop :=
  exists v, parse_lines (split 10%N text) vars0 = Ok v
    /\ v_question v <> [] /\ (5 <= size (v_options v))%nat /\ v_correct v <> []
    /\ q = {| question := v_question v; options := v_options v;
              correct_answer := v_correct v |}.

(** ["\n".join(lines)] *)
Fixpoint join_lines (lines : list pystr) : pystr :=
  match lines with
  | [] => []
  | [line] => line
  | line :: rest => line ++ 10%N :: join_lines rest
  end.

(** A text in the format the docstring of [parse_response] expects. *)
Definition formatted (q a b c d e answer : pystr) : pystr :=
  join_lines [lit "Question:" ++ q; lit "A)" ++ a; lit "B)" ++ b;
              lit "C)" ++ c; lit "D)" ++ d; lit "E)" ++ e;
              lit "Correct Answer:" ++ answer].

Definition sample_text : pystr :=
  formatted (lit " What is 1 + 1?") (lit " 1") (lit " 2 ") (lit " 3")
    (lit " 4") (lit "  5") (lit " B").

Definition sample_question : Question :=
  {| question := lit "What is 1 + 1?";
     options := list_to_map
       [(lit "A", lit "1"); (lit "B", lit "2"); (lit "C", lit "3");
        (lit "D", lit "4"); (lit "E", lit "5")];
     correct_answer := lit "B" |}.

(** The prompt line repeats its own marker. *)
Definition repeated_marker_line : pystr := lit "Question: Is Question: 5 odd?".

(** The prompt is the marker word itself. *)
Definition marker_prompt_text : pystr :=
  formatted (lit " Question:") (lit " 1") (lit " 2") (lit " 3") (lit " 4")
    (lit " 5") (lit " C").

(** Membership in a list of literals, by evaluation. *)
Ltac in_list := apply (bool_decide_unpack _); by vm_compute.

(** One more iteration of the loop. *)
Ltac next_line := cbn [bind parse_lines v_question v_options v_correct].

(** The user's answer is the correct letter of the question on display. *)
Definition answer_correctly (generate : pystr -> pystr) (s : session_state)
  : result session_state :=
  script {| click := SubmitAnswer;
            user_answer := match current_question_data s with
                           | Some q => correct_answer q
                           | None => []
                           end;
            model := pipeline generate |} s.

(** A new session is started and [k] answers are submitted, each of them
    correct; [generate i] is what the language model writes during the
    interaction of number [i]. *)
Fixpoint correct_run (generate : nat -> pystr -> pystr) (k : nat)
  : result session_state :=
  match k with
  | O => script {| click := StartTest; user_answer := [];
                   model := pipeline (generate O) |} no_keys
  | S k' => do s <- correct_run generate k'; answer_correctly (generate k) s
  end.

(** The row recorded for a correct answer to [q] at difficulty [d]. *)
Definition correct_entry (q : Question) (d : pystr) (points : Z) : entry :=
  {| e_Question := question q;
     e_Your_Answer := correct_answer q;
     e_Correct_Answer := correct_answer q;
     e_Difficulty := d;
     e_Points_Awarded := points;
     e_Result := lit "Correct" |}.

(** * The rest of [app.py] *)

(** ** Sorting the option letters (line 119) *)

(** [a <= b] on strings: the code points are compared from left to right,
    and a proper prefix is smaller. *)
Fixpoint str_le (a b : pystr) : bool :=
  match a, b with
  | [], _ => true
  | _ :: _, [] => false
  | x :: a', y :: b' =>
      if N.ltb x y then true
      else if N.eqb x y then str_le a' b'
      else false
  end.

(** [sorted(l)] on a list of strings.  Python's sort is stable; so is the
    insertion of each string before the first one that is not smaller. *)
Fixpoint insert_sorted (x : pystr) (l : list pystr) : list pystr :=
  match l with
  | [] => [x]
  | y :: l' => if str_le x y then x :: l else y :: insert_sorted x l'
  end.

Definition sorted (l : list pystr) : list pystr := foldr insert_sorted [] l.

(** The order [<=] as a relation. *)
Definition str_rel : relation pystr := fun a b => str_le a b = true.

(** [d.keys()]: the keys of a dict, in some order. *)
Definition dict_keys {V : Type} (d : gmap pystr V) : list pystr :=
  (map_to_list d).*1.

(** [option_keys = sorted(qdata["options"].keys())] *)
Definition option_keys (qdata : Question) : list pystr :=
  sorted (dict_keys (options qdata)).

(** ** [plot_score] (lines 88 to 94) *)

(** The labels and the heights that [plot_score] hands to [ax.bar]. *)
Definition plot_score (score : Z) : list pystr * list Z :=
  let scores := [score; 10; 30] in
  let labels := [lit "Your Score"; lit "Min Score"; lit "Max Score"] in
  (labels, scores).

(** ** Vocabulary for the session *)

(** A string that [strip] leaves as it is. *)
Definition trimmed (s : pystr) : Prop := strip s = s.

(** A field as the parser stores it: trimmed and without a newline. *)
Definition field_ok (s : pystr) : Prop := trimmed s /\ 10%N ∉ s.

Definition fields_ok (qu : pystr) (opts : gmap pystr pystr) (co : pystr)
  : Prop :=
  field_ok qu /\ field_ok co /\ forall k t, opts !! k = Some t -> field_ok t.

(** What every question handed to the page satisfies. *)
Definition question_ok (q : Question) : Prop :=
  question q <> [] /\ correct_answer q <> [] /\ dom (options q) = letter_set.

(** The states of the session between two interactions: the state after
    the first run of the script in a new session, and the states that
    interactions lead to from there.  The model is the pipeline around
    some language model. *)
Inductive reachable : session_state -> Prop :=
| reachable_first inp g s :
    model inp = pipeline g -> script inp no_keys = Ok s -> reachable s
| reachable_step s inp g s' :
    reachable s -> model inp = pipeline g -> script inp s = Ok s' ->
    reachable s'.

(** The sum of the column "Points Awarded" of the summary table. *)
Definition total_points (qs : gmap Z entry) : Z :=
  map_fold (fun _ e acc => e_Points_Awarded e + acc) 0 qs.

(** A row of the summary table agrees with itself: the difficulty is on
    the ladder, and the points are those of the difficulty when the answer
    is the correct letter, none otherwise. *)
Definition entry_ok (e : entry) : Prop :=
  e_Difficulty e ∈ difficulty_levels
  /\ ((e_Result e = lit "Correct" /\ e_Your_Answer e = e_Correct_Answer e
       /\ lookup_key scoring (e_Difficulty e) = Ok (e_Points_Awarded e))
      \/ (e_Result e = lit "Incorrect" /\ e_Your_Answer e <> e_Correct_Answer e
          /\ e_Points_Awarded e = 0)).

(** The row that a submission records. *)
Definition answer_entry (q : Question) (a d : pystr) (points : Z) : entry :=
  {| e_Question := question q;
     e_Your_Answer := a;
     e_Correct_Answer := correct_answer q;
     e_Difficulty := d;
     e_Points_Awarded := points;
     e_Result := if Py.eqb a (correct_answer q)
                 then lit "Correct" else lit "Incorrect" |}.

(** The invariant of the session: before the start the keys have their
    initial values; after it, with [k] questions answered, [k] rows are
    recorded under 1 to [k], the score is their total and a question is
    loaded as long as the test goes on. *)
Inductive session_inv : session_state -> Prop :=
| inv_fresh :
    session_inv (mkSession (Some false) (Some 0) (Some 0)
                   (Some (lit "medium")) (Some ∅) None)
| inv_running (k v : Z) d qs oq :
    0 <= k <= TOTAL_QUESTIONS ->
    d ∈ difficulty_levels ->
    (k = 0 -> d = lit "medium") ->
    (forall i : Z, is_Some (qs !! i) <-> 1 <= i <= k) ->
    (forall i e, qs !! i = Some e -> entry_ok e) ->
    (forall e, qs !! 1 = Some e -> e_Difficulty e = lit "medium") ->
    v = total_points qs ->
    0 <= v <= 3 * k ->
    (1 <= k -> v <= 3 * k - 1) ->
    (k < TOTAL_QUESTIONS -> exists q, oq = Some q /\ question_ok q) ->
    (k = TOTAL_QUESTIONS -> oq = None) ->
    session_inv (mkSession (Some true) (Some k) (Some v) (Some d) (Some qs) oq).

(** Whether the click of this interaction is on a button that the page
    shows in state [s], so that its handler runs. *)
Definition effective (inp : input) (s : session_state) : bool :=
  match click inp, started s, current_question s with
  | NoButton, _, _ => false
  | StartTest, Some true, _ => false
  | StartTest, _, _ => true
  | SubmitAnswer, Some true, Some k => k <? TOTAL_QUESTIONS
  | SubmitAnswer, _, _ => false
  | RestartTest, Some true, Some k => TOTAL_QUESTIONS <=? k
  | RestartTest, _, _ => false
  end.


(** ** Sample inputs *)

(** An interaction with a language model that always writes
    [sample_text]. *)
Definition sample_input (b : button) (a : pystr) : input :=
  {| click := b; user_answer := a; model := pipeline (fun _ => sample_text) |}.

(** The session after the click on "Start Test", with that model. *)
Definition sample_started : session_state :=
  mkSession (Some true) (Some 0) (Some 0) (Some (lit "medium")) (Some ∅)
    (Some sample_question).

(** The session after a first, incorrect answer "A". *)
Definition sample_after_wrong : session_state :=
  mkSession (Some true) (Some 1) (Some 0) (Some (lit "easy"))
    (Some (<[1 := answer_entry sample_question (lit "A") (lit "medium") 0]> ∅))
    (Some sample_question).

(** A text that gives the correct letter in brackets, as the prompt of
    [generate_question] words it. *)
Definition bracket_text : pystr :=
  formatted (lit " What is 1 + 1?") (lit " 1") (lit " 2") (lit " 3")
    (lit " 4") (lit " 5") (lit " [B]").

Definition bracket_question : Question :=
  {| question := lit "What is 1 + 1?";
     options := list_to_map
       [(lit "A", lit "1"); (lit "B", lit "2"); (lit "C", lit "3");
        (lit "D", lit "4"); (lit "E", lit "5")];
     correct_answer := lit "[B]" |}.

(** [sample_started] is reachable: by the first interaction. *)
Ltac reach_sample :=
  apply (reachable_first (sample_input StartTest []) (fun _ => sample_text));
  [reflexivity | by vm_compute].

(** * Properties *)

(** ** The model on small inputs *)

Example split_trailing_newline :
  split 10%N (lit "a" ++ nl) = [lit "a"; []] /\ split 10%N [] = [[]].
Proof. by split. Qed.

Example replace_leftmost_first :
  replace (lit "aa") (lit "b") (lit "aaa") = lit "ba"
  /\ replace (lit "ab") [] (lit "xabab y") = lit "x y".
Proof. by split. Qed.

Example strip_both_ends :
  strip (lit "  x y " ++ nl) = lit "x y" /\ strip (lit "   ") = [].
Proof. by split. Qed.

Example parse_sample :
  parse_response (generated sample_text) = Ok sample_question.
Proof. by vm_compute. Qed.

Example parse_no_text : parse_response [] = Raise IndexError.
Proof. reflexivity. Qed.

(** ** The error monad *)

Lemma bind_Ok {A B : Type} (m : result A) (k : A -> result B) (b : B) :
  bind m k = Ok b -> exists a, m = Ok a /\ k a = Ok b.
Proof. destruct m as [a|e]; simpl; [eauto | discriminate]. Qed.

(** ** Strings *)

Section Strings.

Implicit Types (s p old new : pystr) (c : char).

Lemma startswith_app p s : startswith p (p ++ s) = true.
Proof. induction p as [|a p IH]; simpl; [done|]. by rewrite N.eqb_refl. Qed.

Lemma startswith_inv p s :
  startswith p s = true -> s = p ++ drop (length p) s.
Proof.
  revert s. induction p as [|a p IH]; intros [|b s]; simpl; try done.
  intros [Hab Hp]%andb_prop. apply N.eqb_eq in Hab as ->.
  f_equal. by apply IH.
Qed.

Lemma startswith_cons_nonempty c p s :
  startswith (c :: p) s = true -> s <> [].
Proof. by destruct s. Qed.

(** Passing over the rest of an occurrence. *)
Lemma replace_from_skip pre old new s :
  replace_from (length pre) old new (pre ++ s) = replace_from O old new s.
Proof.
  induction pre as [|a pre IH]; simpl; [|exact IH].
  by destruct s.
Qed.

(** An occurrence at the head of the string is replaced, and the scan
    goes on after it. *)
Lemma replace_head c old new s :
  replace (c :: old) new ((c :: old) ++ s) = new ++ replace (c :: old) new s.
Proof.
  unfold replace. cbn [app replace_from].
  change (c :: old ++ s) with ((c :: old) ++ s).
  rewrite startswith_app. cbn [length Nat.pred].
  by rewrite replace_from_skip.
Qed.

Lemma replace_absent c old new s :
  occurs (c :: old) s = false -> replace (c :: old) new s = s.
Proof.
  unfold replace. induction s as [|a s IH]; [done|].
  cbn [occurs]. intros [Hh Ht]%orb_false_elim.
  cbn [replace_from]. rewrite Hh. f_equal. by apply IH.
Qed.

Lemma is_empty_true s : is_empty s = true <-> s = [].
Proof. by destruct s. Qed.

Lemma is_empty_false s : is_empty s = false <-> s <> [].
Proof. by destruct s. Qed.

(** Splitting gives at least one piece, and joining lines that hold no
    separator and splitting again gives the lines back. *)
Lemma split_nonempty c s : split c s <> [].
Proof. destruct s as [|a s]; simpl; [done|]. destruct (N.eqb a c); [done|]. by destruct (split c s). Qed.

Lemma split_one c s : c ∉ s -> split c s = [s].
Proof.
  induction s as [|a s IH]; [done|].
  intros H. apply not_elem_of_cons in H as [Hne Hs].
  simpl. destruct (N.eqb_spec a c) as [->|_]; [done|].
  by rewrite IH.
Qed.

Lemma split_line c s rest :
  c ∉ s -> split c (s ++ c :: rest) = s :: split c rest.
Proof.
  induction s as [|a s IH]; intros H.
  - simpl. by rewrite N.eqb_refl.
  - apply not_elem_of_cons in H as [Hne Hs].
    simpl. destruct (N.eqb_spec a c) as [->|_]; [done|].
    by rewrite IH.
Qed.

End Strings.

(** ** The parser *)

Section Parser.

Implicit Types (line text : pystr) (v : parse_vars) (lines : list pystr).

(** An option line starts with one of the five letters, followed by the
    parenthesis. *)
Lemma is_option_line_inv line :
  is_option_line line = true ->
  exists letter, letter ∈ letters /\ Py.first line = Ok letter
                 /\ startswith (marker letter) line = true.
Proof.
  unfold is_option_line. intros H.
  repeat (apply orb_prop in H as [H|H]);
    pose proof (startswith_inv _ _ H) as E;
    eexists; (split; [|split; [rewrite E; reflexivity|exact H]]);
    in_list.
Qed.

Lemma marker_is_option_line letter line :
  letter ∈ letters -> startswith (marker letter) line = true ->
  is_option_line line = true /\ Py.first line = Ok letter
  /\ startswith (lit "Question:") line = false.
Proof.
  unfold letters, is_option_line. intros Hl H.
  apply startswith_inv in H as ->.
  repeat (apply elem_of_cons in Hl as [->|Hl]); try by apply elem_of_nil in Hl.
  all: by vm_compute.
Qed.

(** The loop body never raises: [line[0]] is only evaluated on a line that
    starts with a marker of two characters. *)
Lemma parse_line_total v line : exists v', parse_line v line = Ok v'.
Proof.
  unfold parse_line.
  destruct (startswith (lit "Question:") line); [eauto|].
  destruct (is_option_line line) eqn:Ho.
  - apply is_option_line_inv in Ho as (letter & _ & -> & _). simpl. eauto.
  - destruct (startswith (lit "Correct Answer:") line); eauto.
Qed.

Lemma parse_lines_total lines v : exists v', parse_lines lines v = Ok v'.
Proof.
  revert v. induction lines as [|line rest IH]; intros v; simpl; [eauto|].
  destruct (parse_line_total v line) as [v' ->]. simpl. apply IH.
Qed.

Lemma parse_lines_app lines1 lines2 v v1 :
  parse_lines lines1 v = Ok v1 ->
  parse_lines (lines1 ++ lines2) v = parse_lines lines2 v1.
Proof.
  revert v. induction lines1 as [|line rest IH]; intros v; simpl.
  - by intros [= ->].
  - destruct (parse_line v line) as [v'|e]; simpl; [apply IH|done].
Qed.

(** Only the five letters are ever keys of [options]. *)
Lemma parse_line_keys v line v' :
  parse_line v line = Ok v' ->
  dom (v_options v) ⊆ letter_set -> dom (v_options v') ⊆ letter_set.
Proof.
  unfold parse_line.
  destruct (startswith (lit "Question:") line); [by intros [= <-]|].
  destruct (is_option_line line) eqn:Ho.
  - apply is_option_line_inv in Ho as (letter & Hl & -> & _). simpl.
    intros [= <-] Hd. simpl. rewrite dom_insert_L.
    apply union_subseteq. split; [|done].
    apply singleton_subseteq_l. by apply elem_of_list_to_set.
  - destruct (startswith (lit "Correct Answer:") line); by intros [= <-].
Qed.

Lemma parse_lines_keys lines v v' :
  parse_lines lines v = Ok v' ->
  dom (v_options v) ⊆ letter_set -> dom (v_options v') ⊆ letter_set.
Proof.
  revert v. induction lines as [|line rest IH]; intros v; simpl.
  - by intros [= <-].
  - intros (v1 & H1 & H2)%bind_Ok Hd.
    eapply IH; [exact H2|]. by eapply parse_line_keys.
Qed.

Lemma letter_set_size : size letter_set = 5%nat.
Proof. by vm_compute. Qed.

Lemma five_keys (m : gmap pystr pystr) :
  dom m ⊆ letter_set -> (5 <= size m)%nat ->
  size m = 5%nat /\ dom m = letter_set.
Proof.
  intros Hsub Hsz. rewrite <- size_dom in Hsz.
  assert (dom m = letter_set) as Heq.
  { apply set_subseteq_size_eq; [done|]. rewrite letter_set_size. lia. }
  split; [|done]. by rewrite <- size_dom, Heq, letter_set_size.
Qed.

Lemma fallback_keys :
  size (options fallback_question) = 5%nat
  /\ dom (options fallback_question) = letter_set.
Proof. split; by vm_compute. Qed.

(** What [parse_text] returns, by the test of line 73. *)
Lemma parse_text_cases text :
  exists v, parse_lines (split 10%N text) vars0 = Ok v
    /\ parse_text text
       = Ok (if rejected v then fallback_question
             else {| question := v_question v; options := v_options v;
                     correct_answer := v_correct v |}).
Proof.
  unfold parse_text.
  destruct (parse_lines_total (split 10%N text) vars0) as [v Hv].
  exists v. split; [done|]. rewrite Hv. simpl. by destruct (rejected v).
Qed.

Lemma rejected_false v :
  rejected v = false <->
  v_question v <> [] /\ (5 <= size (v_options v))%nat /\ v_correct v <> [].
Proof.
  unfold rejected. rewrite !orb_false_iff, !is_empty_false, Z.ltb_ge.
  split; [intros [[Hq Hn] Hc] | intros (Hq & Hn & Hc)];
    repeat split; try done; lia.
Qed.

Lemma parse_response_generated text :
  parse_response (generated text) = parse_text text.
Proof.
  unfold parse_response, generated, lookup_key. simpl.
  by rewrite lookup_insert_eq.
Qed.

End Parser.

Section ParserProperties.

Implicit Types (line text : pystr) (v : parse_vars) (lines : list pystr).

(** C7: the parser is total on every text.  It returns a question and
    never raises; the question is either the validly parsed one or the
    fixed fallback. *)
Theorem parse_response_total text :
  exists q, parse_response (generated text) = Ok q
    /\ (parsed_as text q \/ q = fallback_question).
Proof.
  rewrite parse_response_generated.
  destruct (parse_text_cases text) as (v & Hv & ->).
  eexists. split; [reflexivity|].
  destruct (rejected v) eqn:Hr; [by right|left].
  apply rejected_false in Hr as (Hq & Hn & Hc).
  exists v. by repeat split.
Qed.

(** A line that does not start with "Correct Answer:" leaves [correct] as
    it is. *)
Lemma parse_line_correct_kept v line v' :
  startswith (lit "Correct Answer:") line = false ->
  parse_line v line = Ok v' -> v_correct v' = v_correct v.
Proof.
  unfold parse_line. intros ->.
  destruct (startswith (lit "Question:") line); [by intros [= <-]|].
  destruct (is_option_line line); [|by intros [= <-]].
  intros (letter & _ & [= <-])%bind_Ok. done.
Qed.

Lemma parse_lines_correct_kept lines v v' :
  Forall (fun line => startswith (lit "Correct Answer:") line = false) lines ->
  parse_lines lines v = Ok v' -> v_correct v' = v_correct v.
Proof.
  intros H. revert v. induction H as [|line rest Hl _ IH]; intros v; simpl.
  - by intros [= <-].
  - intros (v1 & H1 & H2)%bind_Ok.
    rewrite (IH _ H2). by eapply parse_line_correct_kept.
Qed.

(** C3: the variables scanned from the text are returned only when the
    prompt is not empty, five options or more were captured and the correct
    letter is not empty; otherwise the fixed fallback is returned, as it is
    for a text with no line that starts with "Correct Answer:". *)
Theorem parse_response_validation text :
  exists v, parse_lines (split 10%N text) vars0 = Ok v
    /\ (v_question v <> [] /\ (5 <= size (v_options v))%nat
        /\ v_correct v <> [] ->
        parse_response (generated text)
        = Ok {| question := v_question v; options := v_options v;
                correct_answer := v_correct v |})
    /\ (~ (v_question v <> [] /\ (5 <= size (v_options v))%nat
           /\ v_correct v <> []) ->
        parse_response (generated text) = Ok fallback_question)
    /\ (Forall (fun line => startswith (lit "Correct Answer:") line = false)
          (split 10%N text) ->
        parse_response (generated text) = Ok fallback_question)
    /\ fallback_question
       = {| question := lit "What is 2 + 2?";
            options := list_to_map
              [(lit "A", lit "3"); (lit "B", lit "4"); (lit "C", lit "5");
               (lit "D", lit "6"); (lit "E", lit "7")];
            correct_answer := lit "B" |}.
Proof.
  rewrite parse_response_generated.
  destruct (parse_text_cases text) as (v & Hv & ->).
  exists v. split; [done|].
  assert (Hno : ~ (v_question v <> [] /\ (5 <= size (v_options v))%nat
                   /\ v_correct v <> []) -> rejected v = true).
  { intros Hn. destruct (rejected v) eqn:Hr; [done|].
    by apply rejected_false in Hr. }
  split; [|split; [|split]].
  - intros H%rejected_false. by rewrite H.
  - intros H%Hno. by rewrite H.
  - intros H. rewrite Hno; [done|].
    intros (_ & _ & Hc). apply Hc.
    by rewrite (parse_lines_correct_kept _ _ _ H Hv).
  - by vm_compute.
Qed.

(** A text with no "Correct Answer:" line falls back; a text in the
    expected format is returned as scanned. *)
Lemma parse_response_validation_witness :
  parse_response (generated (lit "Question: 1 + 1?" ++ nl ++ lit "A) 2"))
  = Ok fallback_question
  /\ parse_response (generated sample_text) = Ok sample_question.
Proof.
  split.
  - destruct (parse_response_validation
                (lit "Question: 1 + 1?" ++ nl ++ lit "A) 2"))
      as (v & _ & _ & _ & H & _).
    apply H. vm_compute. repeat constructor.
  - destruct (parse_response_validation sample_text)
      as (v & Hv & H & _ & _ & _).
    vm_compute in Hv. injection Hv as <-.
    rewrite H; [by vm_compute|].
    cbn [v_question v_options v_correct]. split; [done|]. split; [|done].
    by vm_compute.
Defined.

(** C10: a question the parser returns that is not the fallback has five
    options, and their keys are the letters A to E. *)
Theorem parsed_options_keys text q :
  parse_response (generated text) = Ok q -> q <> fallback_question ->
  size (options q) = 5%nat /\ dom (options q) = letter_set.
Proof.
  rewrite parse_response_generated.
  destruct (parse_text_cases text) as (v & Hv & ->).
  intros [= <-] Hne.
  destruct (rejected v) eqn:Hr; [done|]. simpl.
  apply rejected_false in Hr as (_ & Hn & _).
  apply five_keys; [|done].
  eapply parse_lines_keys; [exact Hv|]. simpl. rewrite dom_empty_L.
  apply empty_subseteq.
Qed.

(** A line that does not start with the marker of [letter] leaves the
    option captured for [letter] as it is. *)
Lemma parse_line_option_kept letter v line v' :
  startswith (marker letter) line = false ->
  parse_line v line = Ok v' -> v_options v' !! letter = v_options v !! letter.
Proof.
  unfold parse_line. intros Hm.
  destruct (startswith (lit "Question:") line); [by intros [= <-]|].
  destruct (is_option_line line) eqn:Ho.
  - apply is_option_line_inv in Ho as (letter' & _ & -> & Hm'). simpl.
    intros [= <-]. simpl. apply lookup_insert_ne. congruence.
  - destruct (startswith (lit "Correct Answer:") line); by intros [= <-].
Qed.

Lemma parse_lines_option_kept letter lines v v' :
  Forall (fun line => startswith (marker letter) line = false) lines ->
  parse_lines lines v = Ok v' -> v_options v' !! letter = v_options v !! letter.
Proof.
  intros H. revert v. induction H as [|line rest Hl _ IH]; intros v; simpl.
  - by intros [= <-].
  - intros (v1 & H1 & H2)%bind_Ok.
    rewrite (IH _ H2). by eapply parse_line_option_kept.
Qed.

(** The option branch of the loop body. *)
Lemma parse_line_option letter v line :
  letter ∈ letters -> startswith (marker letter) line = true ->
  parse_line v line
  = Ok {| v_question := v_question v;
          v_options := <[letter := strip (from 2 line)]> (v_options v);
          v_correct := v_correct v |}.
Proof.
  intros Hl Hm.
  destruct (marker_is_option_line _ _ Hl Hm) as (Ho & Hf & Hq).
  unfold parse_line. by rewrite Hq, Ho, Hf.
Qed.

(** C8: the option captured for a letter is the text of the last line that
    starts with the marker of that letter, whatever lines came before; and a
    line that starts with none of the markers changes none of the three
    variables. *)
Theorem option_last_wins_unmarked_ignored :
  (forall letter pre line post v0,
      letter ∈ letters ->
      startswith (marker letter) line = true ->
      Forall (fun l => startswith (marker letter) l = false) post ->
      exists v, parse_lines (pre ++ line :: post) v0 = Ok v
        /\ v_options v !! letter = Some (strip (from 2 line)))
  /\ (forall v line, unmarked line = true -> parse_line v line = Ok v).
Proof.
  split.
  - intros letter pre line post v0 Hl Hm Hpost.
    destruct (parse_lines_total pre v0) as [v1 Hpre].
    rewrite (parse_lines_app _ _ _ _ Hpre). simpl.
    rewrite (parse_line_option _ _ _ Hl Hm). simpl.
    match goal with
    | |- context [parse_lines post ?w] =>
        destruct (parse_lines_total post w) as [v Hv]
    end.
    exists v. split; [done|].
    rewrite (parse_lines_option_kept _ _ _ _ Hpost Hv). simpl.
    apply lookup_insert_eq.
  - intros v line. unfold unmarked, parse_line.
    intros [[Hq Ho]%andb_prop Hc]%andb_prop.
    apply negb_true_iff in Hq, Ho, Hc. by rewrite Hq, Ho, Hc.
Qed.

(** Two lines for "B)": the second one is kept; the lines in between and
    after are of other kinds, and a line with no marker changes nothing. *)
Lemma option_last_wins_witness :
  (exists v,
      parse_lines ([lit "B) first"; lit "note"] ++ lit "B) second"
                     :: [lit "C) third"; lit "Correct Answer: B"]) vars0 = Ok v
      /\ v_options v !! lit "B" = Some (lit "second"))
  /\ parse_line vars0 (lit "note") = Ok vars0.
Proof.
  destruct option_last_wins_unmarked_ignored as [H1 H2].
  split.
  - apply (H1 (lit "B") [lit "B) first"; lit "note"] (lit "B) second")
             [lit "C) third"; lit "Correct Answer: B"] vars0).
    + in_list.
    + reflexivity.
    + repeat constructor.
  - apply (H2 vars0 (lit "note")). reflexivity.
Defined.

End ParserProperties.

(** ** The prompt line and the expected format *)

Section Format.

Implicit Types (line text rest q a b c d e : pystr) (v : parse_vars).

Lemma parsed_options_keys_witness :
  size (options sample_question) = 5%nat
  /\ dom (options sample_question) = letter_set.
Proof.
  apply (parsed_options_keys sample_text sample_question).
  - vm_compute. reflexivity.
  - intros H. apply (f_equal question) in H. vm_compute in H. discriminate H.
Defined.

(** The prompt branch of the loop body, on the characters after the
    marker. *)
Lemma parse_line_question v rest :
  parse_line v (lit "Question:" ++ rest)
  = Ok {| v_question := strip (replace (lit "Question:") [] rest);
          v_options := v_options v;
          v_correct := v_correct v |}.
Proof.
  unfold parse_line. rewrite startswith_app.
  change (lit "Question:") with (81%N :: lit "uestion:").
  by rewrite replace_head.
Qed.

(** When the marker does not come again in the line, the prompt is the
    characters after the marker, trimmed. *)
Lemma parse_line_question_once v rest :
  occurs (lit "Question:") rest = false ->
  parse_line v (lit "Question:" ++ rest)
  = Ok {| v_question := strip rest;
          v_options := v_options v;
          v_correct := v_correct v |}.
Proof.
  intros H. rewrite parse_line_question.
  change (lit "Question:") with (81%N :: lit "uestion:") in *.
  by rewrite replace_absent.
Qed.

(** C9, on a line that holds the marker twice: every occurrence of
    "Question:" is removed, so the prompt is not the characters after the
    leading marker, trimmed. *)
Theorem question_marker_removed_everywhere :
  startswith (lit "Question:") repeated_marker_line = true
  /\ parse_line vars0 repeated_marker_line
     = Ok {| v_question := lit "Is  5 odd?"; v_options := ∅; v_correct := [] |}
  /\ strip (from 9 repeated_marker_line) = lit "Is Question: 5 odd?".
Proof. repeat split; by vm_compute. Qed.

(** C4, on a text in the expected format whose prompt is the word
    "Question:": the prompt comes out empty and the fallback is returned,
    with the correct letter "B" and the options of the fallback. *)
Theorem marker_prompt_falls_back :
  strip (from 9 (lit "Question: Question:")) = lit "Question:"
  /\ parse_response (generated marker_prompt_text) = Ok fallback_question
  /\ correct_answer fallback_question = lit "B"
  /\ options fallback_question !! lit "A" = Some (lit "3").
Proof. repeat split; by vm_compute. Qed.

Lemma parse_line_answer_C v :
  parse_line v (lit "Correct Answer: C")
  = Ok {| v_question := v_question v; v_options := v_options v;
          v_correct := lit "C" |}.
Proof. reflexivity. Qed.

Lemma split_join_lines (lines : list pystr) :
  lines <> [] -> Forall (fun l => 10%N ∉ l) lines ->
  split 10%N (join_lines lines) = lines.
Proof.
  intros Hne H. induction H as [|line rest Hl Hrest IH]; [done|].
  destruct rest as [|line' rest].
  - simpl. by apply split_one.
  - change (join_lines (line :: line' :: rest))
      with (line ++ 10%N :: join_lines (line' :: rest)).
    rewrite split_line by done. f_equal. by apply IH.
Qed.

Lemma lit_no_newline (s : string) (t : pystr) :
  forallb (fun x => negb (N.eqb x 10)) (lit s) = true ->
  10%N ∉ t -> 10%N ∉ lit s ++ t.
Proof.
  intros H Ht [Hx|Hx]%elem_of_app; [|done].
  rewrite forallb_forall in H.
  apply list_elem_of_In, H in Hx. by rewrite N.eqb_refl in Hx.
Qed.

(** A text in the expected format is parsed as written, provided that the
    prompt is still not empty once every "Question:" is removed from it. *)
Lemma parse_formatted q a b c d e :
  10%N ∉ q -> 10%N ∉ a -> 10%N ∉ b -> 10%N ∉ c -> 10%N ∉ d -> 10%N ∉ e ->
  strip (replace (lit "Question:") [] q) <> [] ->
  parse_response (generated (formatted q a b c d e (lit " C")))
  = Ok {| question := strip (replace (lit "Question:") [] q);
          options := list_to_map
            [(lit "A", strip a); (lit "B", strip b); (lit "C", strip c);
             (lit "D", strip d); (lit "E", strip e)];
          correct_answer := lit "C" |}.
Proof.
  intros Hq Ha Hb Hc Hd He Hne.
  rewrite parse_response_generated. unfold parse_text, formatted.
  rewrite split_join_lines; [|done|].
  2: { repeat (apply Forall_cons; split; [apply lit_no_newline; [reflexivity|]|]);
         try done.
       apply (bool_decide_unpack _). by vm_compute. }
  cbn [parse_lines].
  rewrite parse_line_question. cbn [bind].
  rewrite (parse_line_option (lit "A")); [|in_list|reflexivity]. next_line.
  rewrite (parse_line_option (lit "B")); [|in_list|reflexivity]. next_line.
  rewrite (parse_line_option (lit "C")); [|in_list|reflexivity]. next_line.
  rewrite (parse_line_option (lit "D")); [|in_list|reflexivity]. next_line.
  rewrite (parse_line_option (lit "E")); [|in_list|reflexivity]. next_line.
  change (lit "Correct Answer:" ++ lit " C") with (lit "Correct Answer: C").
  rewrite parse_line_answer_C. next_line.
  change (from 2 (lit "A)" ++ a)) with a. change (from 2 (lit "B)" ++ b)) with b.
  change (from 2 (lit "C)" ++ c)) with c. change (from 2 (lit "D)" ++ d)) with d.
  change (from 2 (lit "E)" ++ e)) with e.
  revert Hne.
  generalize (strip (replace (lit "Question:") [] q)), (strip a), (strip b),
    (strip c), (strip d), (strip e).
  intros q' a' b' c' d' e' Hne.
  assert (Heq : <[lit "E":=e']> (<[lit "D":=d']> (<[lit "C":=c']>
                  (<[lit "B":=b']> (<[lit "A":=a']> (v_options vars0)))))
                = list_to_map [(lit "A", a'); (lit "B", b'); (lit "C", c');
                               (lit "D", d'); (lit "E", e')] :> gmap pystr pystr)
    by (by vm_compute).
  rewrite Heq. clear Heq.
  assert (Hr : rejected
            {| v_question := q';
               v_options := list_to_map [(lit "A", a'); (lit "B", b');
                 (lit "C", c'); (lit "D", d'); (lit "E", e')];
               v_correct := lit "C" |} = false).
  { apply rejected_false. simpl v_question. split; [done|]. split; [|done].
    by vm_compute. }
  by rewrite Hr.
Qed.

End Format.

(** ** The difficulty ladder and the points *)

Section Ladder.

Implicit Types (d : pystr) (c : bool) (s : session_state).

Lemma difficulty_levels_cases d :
  d ∈ difficulty_levels -> d = lit "easy" \/ d = lit "medium" \/ d = lit "hard".
Proof.
  unfold difficulty_levels. intros H.
  repeat (apply elem_of_cons in H as [H|H]; [tauto|]).
  by apply elem_of_nil in H.
Qed.

(** C2: on the ladder easy, medium, hard, [adjust_difficulty] returns a
    level of the ladder: the next one up for a correct answer, with hard
    staying hard, the next one down for an incorrect answer, with easy
    staying easy. *)
Theorem adjust_difficulty_ladder d c :
  d ∈ difficulty_levels ->
  exists (i : nat) d',
    difficulty_levels !! i = Some d
    /\ adjust_difficulty d c = Ok d'
    /\ d' ∈ difficulty_levels
    /\ difficulty_levels !! (if c then Nat.min (i + 1) 2 else Nat.pred i)
       = Some d'
    /\ adjust_difficulty (lit "hard") true = Ok (lit "hard")
    /\ adjust_difficulty (lit "easy") false = Ok (lit "easy").
Proof.
  intros [->|[->| ->]]%difficulty_levels_cases; destruct c.
  - exists 0%nat, (lit "medium"). repeat split; try reflexivity.
    in_list.
  - exists 0%nat, (lit "easy"). repeat split; try reflexivity.
    in_list.
  - exists 1%nat, (lit "hard"). repeat split; try reflexivity.
    in_list.
  - exists 1%nat, (lit "easy"). repeat split; try reflexivity.
    in_list.
  - exists 2%nat, (lit "hard"). repeat split; try reflexivity.
    in_list.
  - exists 2%nat, (lit "medium"). repeat split; try reflexivity.
    in_list.
Qed.

Lemma adjust_difficulty_ladder_witness :
  exists (i : nat) d',
    difficulty_levels !! i = Some (lit "medium")
    /\ adjust_difficulty (lit "medium") true = Ok d'
    /\ d' ∈ difficulty_levels
    /\ difficulty_levels !! (Nat.min (i + 1) 2) = Some d'
    /\ adjust_difficulty (lit "hard") true = Ok (lit "hard")
    /\ adjust_difficulty (lit "easy") false = Ok (lit "easy").
Proof.
  apply (adjust_difficulty_ladder (lit "medium") true).
  in_list.
Defined.

(** The values of [scoring]. *)
Lemma scoring_values d p :
  lookup_key scoring d = Ok p ->
  (d = lit "easy" /\ p = 1) \/ (d = lit "medium" /\ p = 2)
  \/ (d = lit "hard" /\ p = 3).
Proof.
  unfold lookup_key, scoring.
  destruct (_ !! d) as [p'|] eqn:H; [|done]. intros [= ->].
  apply lookup_insert_Some in H as [[<- <-]|[_ H]]; [tauto|].
  apply lookup_insert_Some in H as [[<- <-]|[_ H]]; [tauto|].
  apply lookup_insert_Some in H as [[<- <-]|[_ H]]; [tauto|].
  by rewrite lookup_empty in H.
Qed.

Lemma points_awarded_nonneg s c p : points_awarded s c = Ok p -> 0 <= p.
Proof.
  unfold points_awarded. destruct c; [|intros [= <-]; lia].
  intros (d & _ & H)%bind_Ok.
  apply scoring_values in H. lia.
Qed.

End Ladder.

(** ** The session *)

Section Session.

Implicit Types (s : session_state) (inp : input) (q : Question) (d : pystr).

Lemma generate_question_total g d :
  exists q, generate_question (pipeline g) d = Ok q.
Proof.
  unfold generate_question, pipeline. rewrite parse_response_generated.
  match goal with
  | |- context [parse_text ?t] =>
      destruct (parse_text_cases t) as (v & _ & ->)
  end.
  by eexists.
Qed.

(** A run of the script with no click, on a test in progress with no
    question loaded: one is generated. *)
Lemma run_once_generates inp g (k v : Z) d qs :
  click inp = NoButton -> model inp = pipeline g -> k < TOTAL_QUESTIONS ->
  exists q,
    run_once inp (mkSession (Some true) (Some k) (Some v) (Some d) (Some qs) None)
    = Ok (mkSession (Some true) (Some k) (Some v) (Some d) (Some qs) (Some q),
          false).
Proof.
  intros Hc Hm Hk. apply Z.ltb_lt in Hk.
  destruct (generate_question_total g d) as [q Hq].
  exists q. unfold run_once, st_button. simpl. rewrite Hk, Hc, Hm. simpl.
  by rewrite Hq.
Qed.

(** A run with no click on a completed test changes nothing. *)
Lemma run_once_completed inp (k v : Z) d qs oq :
  click inp = NoButton -> TOTAL_QUESTIONS <= k ->
  run_once inp (mkSession (Some true) (Some k) (Some v) (Some d) (Some qs) oq)
  = Ok (mkSession (Some true) (Some k) (Some v) (Some d) (Some qs) oq, false).
Proof.
  intros Hc Hk. apply Z.ltb_ge in Hk.
  unfold run_once, st_button. simpl. by rewrite Hk, Hc.
Qed.

(** The first interaction of a session: the click on "Start Test". *)
Lemma script_start inp g s :
  click inp = StartTest -> model inp = pipeline g ->
  init_session_state s = init_session_state no_keys ->
  exists q,
    script inp s
    = Ok (mkSession (Some true) (Some 0) (Some 0) (Some (lit "medium"))
            (Some ∅) (Some q)).
Proof.
  intros Hc Hm Hs.
  destruct (run_once_generates (no_click inp) g 0 0 (lit "medium") ∅)
    as [q Hq]; [done..|].
  exists q. unfold script.
  assert (run_once inp s
          = Ok (mkSession (Some true) (Some 0) (Some 0) (Some (lit "medium"))
                  (Some ∅) None, true)) as ->.
  { unfold run_once, st_button. rewrite Hs, Hc. reflexivity. }
  cbn [bind snd fst]. by rewrite Hq.
Qed.

(** Once the keys are there, the initialisation changes nothing. *)
Lemma init_session_state_ready (b : bool) (k v : Z) d qs oq :
  init_session_state (mkSession (Some b) (Some k) (Some v) (Some d) (Some qs) oq)
  = mkSession (Some b) (Some k) (Some v) (Some d) (Some qs) oq.
Proof. reflexivity. Qed.

(** The "Submit Answer" handler on a correct answer. *)
Lemma submit_answer_correct q q0 (k v p : Z) d d' qs :
  lookup_key scoring d = Ok p -> adjust_difficulty d true = Ok d' ->
  submit_answer q (correct_answer q)
    (mkSession (Some true) (Some k) (Some v) (Some d) (Some qs) (Some q0))
  = Ok (mkSession (Some true) (Some (k + 1)) (Some (v + p)) (Some d')
          (Some (<[k + 1 := correct_entry q d p]> qs)) None).
Proof.
  intros Hp Hd. unfold submit_answer, points_awarded, Py.eqb.
  rewrite bool_decide_eq_true_2 by done. simpl.
  rewrite Hp. simpl. by rewrite Hd.
Qed.

(** One interaction in which the question on display is answered
    correctly. *)
Lemma answer_correctly_step g q (k v p : Z) d d' qs :
  k < TOTAL_QUESTIONS ->
  lookup_key scoring d = Ok p -> adjust_difficulty d true = Ok d' ->
  exists oq,
    answer_correctly g
      (mkSession (Some true) (Some k) (Some v) (Some d) (Some qs) (Some q))
    = Ok (mkSession (Some true) (Some (k + 1)) (Some (v + p)) (Some d')
            (Some (<[k + 1 := correct_entry q d p]> qs)) oq)
    /\ (k + 1 < TOTAL_QUESTIONS -> is_Some oq).
Proof.
  intros Hk Hp Hd. unfold answer_correctly, script.
  set (inp := {| click := SubmitAnswer; user_answer := _; model := _ |}).
  assert (run_once inp
            (mkSession (Some true) (Some k) (Some v) (Some d) (Some qs) (Some q))
          = Ok (mkSession (Some true) (Some (k + 1)) (Some (v + p)) (Some d')
                  (Some (<[k + 1 := correct_entry q d p]> qs)) None, true))
    as ->.
  { unfold run_once, st_button. cbn [init_session_state setdefault started
      current_question attr bind negb andb current_question_data click inp
      button_eqb user_answer].
    apply Z.ltb_lt in Hk. rewrite Hk. subst inp.
    cbn [init_session_state setdefault started
      current_question attr bind negb andb current_question_data click
      button_eqb user_answer]. rewrite init_session_state_ready.
    by rewrite (submit_answer_correct _ _ _ _ _ _ _ _ Hp Hd). }
  cbn [bind snd fst].
  destruct (Z.lt_ge_cases (k + 1) TOTAL_QUESTIONS) as [Hlt|Hge].
  - destruct (run_once_generates (no_click inp) g (k + 1) (v + p) d'
                (<[k + 1 := correct_entry q d p]> qs)) as [q' Hq']; [done..|].
    rewrite Hq'. exists (Some q'). split; [done|]. by eexists.
  - rewrite run_once_completed by done.
    exists None. split; [done|]. lia.
Qed.


(** C1: from a new session, after the start and [k] correct answers
    ([k <= 10]) the script has raised nothing; the difficulty is "medium"
    for the first question and "hard" for every later one; each answer is
    recorded as correct at that difficulty; the score is 2 for the first
    answer plus 3 for each later one, which is 29 after the tenth. *)
Theorem ten_correct_answers (g : nat -> pystr -> pystr) (k : nat) :
  (k <= 10)%nat ->
  exists s qs,
    correct_run g k = Ok s
    /\ started s = Some true
    /\ current_question s = Some (Z.of_nat k)
    /\ current_difficulty s
       = Some (match k with O => lit "medium" | S _ => lit "hard" end)
    /\ score s = Some (match k with O => 0 | S m => 2 + 3 * Z.of_nat m end)
    /\ questions s = Some qs
    /\ (forall i : nat, (1 <= i <= k)%nat ->
          exists e, qs !! Z.of_nat i = Some e
            /\ e_Difficulty e
               = match i with 1%nat => lit "medium" | _ => lit "hard" end
            /\ e_Result e = lit "Correct")
    /\ ((k < 10)%nat -> is_Some (current_question_data s))
    /\ (k = 10%nat -> score s = Some 29).
Proof.
  induction k as [|k IH]; intros Hk.
  - destruct (script_start
                {| click := StartTest; user_answer := [];
                   model := pipeline (g O) |} (g O) no_keys) as [q Hq];
      [done..|].
    eexists _, ∅. split; [exact Hq|]. cbn.
    repeat split; try done; lia.
  - destruct IH as (s & qs & Hrun & Hst & Hcq & Hd & Hsc & Hqs & Hrec & Hdata
                    & _); [lia|].
    destruct Hdata as [q Hq]; [lia|].
    destruct s as [st cq sc d qs' oq]. simpl in *. subst.
    set (d := match k with O => lit "medium" | S _ => lit "hard" end).
    set (p := match k with O => 2 | S _ => 3 end).
    assert (Hp : lookup_key scoring d = Ok p) by (by destruct k).
    assert (Hd : adjust_difficulty d true = Ok (lit "hard")) by (by destruct k).
    destruct (answer_correctly_step (g (S k)) q (Z.of_nat k)
                (match k with O => 0 | S m => 2 + 3 * Z.of_nat m end)
                p d (lit "hard") qs) as (oq & Hstep & Hoq);
      [unfold TOTAL_QUESTIONS; lia|done..|].
    eexists _, _. split.
    { cbn [correct_run]. rewrite Hrun. cbn [bind]. exact Hstep. }
    cbn [started current_question current_difficulty score questions
         current_question_data].
    split; [done|]. split; [f_equal; lia|]. split; [done|].
    split; [f_equal; subst p; destruct k; lia|]. split; [done|].
    split; [|split].
    + intros i Hi. destruct (decide (i = S k)) as [->|Hne].
      * replace (Z.of_nat k + 1) with (Z.of_nat (S k)) by lia.
        rewrite lookup_insert_eq. eexists. split; [done|].
        split; [|done]. simpl. subst d. by destruct k.
      * rewrite lookup_insert_ne by lia. apply Hrec. lia.
    + intros Hlt. apply Hoq. unfold TOTAL_QUESTIONS. lia.
    + intros [= ->]. reflexivity.
Qed.

Lemma ten_correct_answers_witness :
  exists s, correct_run (fun _ _ => sample_text) 10 = Ok s
    /\ score s = Some 29.
Proof.
  destruct (ten_correct_answers (fun _ _ => sample_text) 10)
    as (s & qs & Hrun & _ & _ & _ & _ & _ & _ & _ & H29); [lia|].
  exists s. split; [exact Hrun|]. by apply H29.
Defined.


(** C6: on a completed test a click on "Restart Test" deletes every key,
    and the rerun sets the keys to their initial values: not started,
    question index 0, score 0, difficulty "medium", no answer recorded.
    Starting again from there gives the state that the start of a new
    session gives. *)
Theorem restart_then_start s inp inp' g (n : Z) :
  started s = Some true -> current_question s = Some n ->
  TOTAL_QUESTIONS <= n -> click inp = RestartTest ->
  click inp' = StartTest -> model inp' = pipeline g ->
  exists q,
    script inp s = Ok (init_session_state no_keys)
    /\ init_session_state no_keys
       = mkSession (Some false) (Some 0) (Some 0) (Some (lit "medium"))
           (Some ∅) None
    /\ script inp' (init_session_state no_keys)
       = Ok (mkSession (Some true) (Some 0) (Some 0) (Some (lit "medium"))
               (Some ∅) (Some q))
    /\ script inp' (init_session_state no_keys) = script inp' no_keys.
Proof.
  intros Hst Hcq Hn Hc Hc' Hm.
  destruct (script_start inp' g (init_session_state no_keys) Hc' Hm eq_refl)
    as [q Hq].
  destruct (script_start inp' g no_keys Hc' Hm eq_refl) as [q' Hq'].
  exists q. split; [|split; [done|split; [done|]]].
  - destruct s as [st cq sc d qs oq]. simpl in Hst, Hcq. subst st cq.
    apply Z.ltb_ge in Hn.
    unfold script, run_once, st_button. simpl. rewrite Hn, Hc. reflexivity.
  - unfold script, run_once, st_button. rewrite Hc'. reflexivity.
Qed.

Lemma restart_then_start_witness :
  exists q,
    script {| click := RestartTest; user_answer := lit "A";
              model := pipeline (fun _ => sample_text) |}
      (mkSession (Some true) (Some 10) (Some 29) (Some (lit "hard")) (Some ∅)
         None)
    = Ok (init_session_state no_keys)
    /\ script {| click := StartTest; user_answer := lit "A";
                 model := pipeline (fun _ => sample_text) |}
         (init_session_state no_keys)
       = Ok (mkSession (Some true) (Some 0) (Some 0) (Some (lit "medium"))
               (Some ∅) (Some q)).
Proof.
  destruct (restart_then_start
              (mkSession (Some true) (Some 10) (Some 29) (Some (lit "hard"))
                 (Some ∅) None)
              {| click := RestartTest; user_answer := lit "A";
                 model := pipeline (fun _ => sample_text) |}
              {| click := StartTest; user_answer := lit "A";
                 model := pipeline (fun _ => sample_text) |}
              (fun _ => sample_text) 10)
    as (q & H1 & _ & H2 & _);
    [reflexivity|reflexivity|unfold TOTAL_QUESTIONS; lia|reflexivity..|].
  exists q. by split.
Defined.

Lemma submit_answer_score q a s s' (v : Z) :
  score s = Some v -> submit_answer q a s = Ok s' ->
  exists p, points_awarded s (Py.eqb a (correct_answer q)) = Ok p
    /\ score s' = Some (v + p).
Proof.
  intros Hv. unfold submit_answer.
  intros (p & Hp & H)%bind_Ok. exists p. split; [done|].
  rewrite Hv in H. cbn [attr bind] in H.
  repeat (apply bind_Ok in H as (? & _ & H)).
  by injection H as <-.
Qed.

(** When a submission goes through on a state that holds all it reads. *)
Lemma submit_answer_total q q0 a (k v : Z) d qs :
  d ∈ difficulty_levels ->
  exists s', submit_answer q a
      (mkSession (Some true) (Some k) (Some v) (Some d) (Some qs) (Some q0))
    = Ok s'.
Proof.
  intros [->|[->| ->]]%difficulty_levels_cases;
    unfold submit_answer; destruct (Py.eqb a (correct_answer q));
    by eexists.
Qed.

Lemma run_once_score inp s s' r (v : Z) :
  score s = Some v -> run_once inp s = Ok (s', r) ->
  (click inp = RestartTest /\ started s = Some true
   /\ (exists n, current_question s = Some n /\ TOTAL_QUESTIONS <= n)
   /\ s' = no_keys /\ r = true)
  \/ (exists p, 0 <= p /\ score s' = Some (v + p)
              /\ (p = 0 \/ click inp = SubmitAnswer)).
Proof.
  intros Hv H.
  assert (Hkeep : forall t, score t = Some v ->
     exists p, 0 <= p /\ score t = Some (v + p)
               /\ (p = 0 \/ click inp = SubmitAnswer)).
  { intros t Ht. exists 0. rewrite Z.add_0_r.
    split; [lia|]. split; [done|by left]. }
  destruct s as [st cq sc d qs oq]. simpl in Hv. subst sc.
  unfold run_once in H.
  set (s0 := init_session_state _) in H.
  assert (Hs0 : score s0 = Some v) by done.
  destruct st as [[|]|]; cbn [s0 init_session_state setdefault started attr bind negb andb] in H.
  2, 3: destruct (st_button inp StartTest);
        injection H as <- <-; right; by apply Hkeep.
  apply bind_Ok in H as (k & Hk & H).
  destruct (k <? TOTAL_QUESTIONS) eqn:Hlt.
  - apply bind_Ok in H as (s1 & Hs1 & H).
    assert (Hsc1 : score s1 = Some v).
    { destruct oq; cbn in Hs1.
      - by injection Hs1 as <-.
      - apply bind_Ok in Hs1 as (? & _ & Hs1).
        apply bind_Ok in Hs1 as (? & _ & Hs1). by injection Hs1 as <-. }
    apply bind_Ok in H as (qd & _ & H).
    unfold st_button in H. destruct (click inp) eqn:Hc; simpl in H;
      try (injection H as <- <-; right; by apply Hkeep).
    apply bind_Ok in H as (s2 & Hs2 & H). injection H as <- <-.
    destruct (submit_answer_score _ _ _ _ _ Hsc1 Hs2) as (p & Hp & Hsc2).
    right. exists p. split; [by eapply points_awarded_nonneg|].
    split; [done|by right].
  - unfold st_button in H. destruct (click inp) eqn:Hc; simpl in H;
      try (injection H as <- <-; right; by apply Hkeep).
    injection H as <- <-. left. repeat split; try done.
    exists k. apply Z.ltb_ge in Hlt. split; [|done].
    destruct cq; cbn in Hk; by injection Hk as <-.
Qed.


Lemma script_score inp s s' (v : Z) :
  score s = Some v -> script inp s = Ok s' ->
  (click inp = RestartTest /\ started s = Some true
   /\ (exists n, current_question s = Some n /\ TOTAL_QUESTIONS <= n)
   /\ score s' = Some 0)
  \/ (exists p, 0 <= p /\ score s' = Some (v + p)
              /\ (p = 0 \/ click inp = SubmitAnswer)).
Proof.
  intros Hv. unfold script. intros ([s1 r] & H1 & H)%bind_Ok.
  cbn [fst snd] in H.
  destruct (run_once_score _ _ _ _ _ Hv H1)
    as [(Hc & Hst & Hn & -> & ->)|(p & Hp & Hsc & Hor)].
  - left. repeat split; try done.
    apply bind_Ok in H as ([s2 r2] & H2 & H). injection H as <-.
    unfold run_once in H2. cbn in H2. by injection H2 as <- <-.
  - right. destruct r.
    + apply bind_Ok in H as ([s2 r2] & H2 & H). injection H as <-.
      destruct (run_once_score _ _ _ _ _ Hsc H2)
        as [(Hc & _)|(p' & Hp' & Hsc' & [->|Hc])]; try done.
      exists p. rewrite Z.add_0_r in Hsc'. by repeat split.
    + injection H as <-. exists p. by repeat split.
Qed.

(** C5: a correct answer earns 1, 2 or 3 points at easy, medium or hard,
    an incorrect answer earns 0 at any difficulty; a submission adds the
    points to the score; and no interaction other than a restart of a
    completed test lowers the score or sets it back. *)
Theorem points_and_running_score :
  (forall s, current_difficulty s = Some (lit "easy") ->
             points_awarded s true = Ok 1)
  /\ (forall s, current_difficulty s = Some (lit "medium") ->
                points_awarded s true = Ok 2)
  /\ (forall s, current_difficulty s = Some (lit "hard") ->
                points_awarded s true = Ok 3)
  /\ (forall s, points_awarded s false = Ok 0)
  /\ (forall q q0 a (k v : Z) d qs,
        d ∈ difficulty_levels ->
        let s := mkSession (Some true) (Some k) (Some v) (Some d) (Some qs)
                   (Some q0) in
        exists p s',
          points_awarded s (Py.eqb a (correct_answer q)) = Ok p
          /\ submit_answer q a s = Ok s'
          /\ score s' = Some (v + p))
  /\ (forall inp s s' (v : Z),
        score s = Some v -> script inp s = Ok s' ->
        (click inp = RestartTest /\ started s = Some true
         /\ (exists n, current_question s = Some n /\ TOTAL_QUESTIONS <= n)
         /\ score s' = Some 0)
        \/ (exists p, 0 <= p /\ score s' = Some (v + p)
                    /\ (p = 0 \/ click inp = SubmitAnswer))).
Proof.
  split; [|split; [|split; [|split; [|split]]]].
  - intros s H. unfold points_awarded. by rewrite H.
  - intros s H. unfold points_awarded. by rewrite H.
  - intros s H. unfold points_awarded. by rewrite H.
  - done.
  - intros q q0 a k v d qs Hd s.
    destruct (submit_answer_total q q0 a k v d qs Hd) as [s' Hs'].
    destruct (submit_answer_score q a s s' v eq_refl Hs') as (p & Hp & Hsc).
    by exists p, s'.
  - apply script_score.
Qed.

Lemma points_and_running_score_witness :
  points_awarded
    (mkSession (Some true) (Some 0) (Some 0) (Some (lit "medium")) (Some ∅)
       (Some sample_question)) true = Ok 2
  /\ (exists p s',
        points_awarded
          (mkSession (Some true) (Some 0) (Some 0) (Some (lit "medium"))
             (Some ∅) (Some sample_question))
          (Py.eqb (lit "A") (correct_answer sample_question)) = Ok p
        /\ submit_answer sample_question (lit "A")
             (mkSession (Some true) (Some 0) (Some 0) (Some (lit "medium"))
                (Some ∅) (Some sample_question)) = Ok s'
        /\ score s' = Some (0 + p))
  /\ exists p, 0 <= p
       /\ score (mkSession (Some true) (Some 1) (Some 2) (Some (lit "hard"))
                   (Some (<[1 := correct_entry sample_question (lit "medium") 2]> ∅))
                   (Some sample_question)) = Some (0 + p).
Proof.
  destruct points_and_running_score as (_ & Hm & _ & _ & Hsub & Hs).
  split; [by apply Hm|]. split.
  { apply (Hsub sample_question sample_question (lit "A") 0 0 (lit "medium") ∅).
    in_list. }
  destruct (Hs {| click := SubmitAnswer; user_answer := lit "B";
                  model := pipeline (fun _ => sample_text) |}
              (mkSession (Some true) (Some 0) (Some 0) (Some (lit "medium"))
                 (Some ∅) (Some sample_question))
              (mkSession (Some true) (Some 1) (Some 2) (Some (lit "hard"))
                 (Some (<[1 := correct_entry sample_question (lit "medium") 2]> ∅))
                 (Some sample_question)) 0)
    as [(Hc & _)|(p & Hp & Hsc & _)].
  - reflexivity.
  - by vm_compute.
  - discriminate Hc.
  - by exists p.
Defined.

End Session.

(** * Properties of the rest of [app.py] *)

(** ** String order and [sorted] *)

Section Sorting.

Implicit Types (a b c : pystr) (l : list pystr).

Lemma str_le_refl a : str_le a a = true.
Proof.
  induction a as [|x a IH]; [done|]. simpl.
  by rewrite N.ltb_irrefl, N.eqb_refl.
Qed.

Lemma str_le_total a b : str_le a b = true \/ str_le b a = true.
Proof.
  revert b. induction a as [|x a IH]; intros [|y b]; simpl; auto.
  destruct (N.ltb_spec x y), (N.ltb_spec y x), (N.eqb_spec x y),
    (N.eqb_spec y x); auto; lia.
Qed.

Lemma str_le_antisym a b : str_le a b = true -> str_le b a = true -> a = b.
Proof.
  revert b. induction a as [|x a IH]; intros [|y b]; simpl; try done.
  destruct (N.ltb_spec x y), (N.ltb_spec y x), (N.eqb_spec x y),
    (N.eqb_spec y x); try done; try lia.
  intros. f_equal; auto.
Qed.

Lemma str_le_trans a b c :
  str_le a b = true -> str_le b c = true -> str_le a c = true.
Proof.
  revert b c. induction a as [|x a IH]; intros [|y b] [|z c]; simpl; try done.
  destruct (N.ltb_spec x y), (N.ltb_spec y z), (N.ltb_spec x z),
    (N.eqb_spec x y), (N.eqb_spec y z), (N.eqb_spec x z);
    try done; try lia.
  apply IH.
Qed.

Lemma str_rel_trans : Transitive str_rel.
Proof. intros a b c. apply str_le_trans. Qed.

Lemma str_rel_antisym : AntiSymm (=) str_rel.
Proof. intros a b. apply str_le_antisym. Qed.

Lemma insert_sorted_perm a l : insert_sorted a l ≡ₚ a :: l.
Proof.
  induction l as [|b l IH]; [done|]. simpl.
  destruct (str_le a b); [done|]. by rewrite IH, Permutation_swap.
Qed.

Lemma sorted_perm l : sorted l ≡ₚ l.
Proof.
  induction l as [|a l IH]; [done|]. simpl.
  by rewrite insert_sorted_perm, IH.
Qed.

Lemma insert_sorted_Sorted a l :
  Sorted str_rel l -> Sorted str_rel (insert_sorted a l).
Proof.
  induction 1 as [|b l Hl IH Hb]; simpl; [by repeat constructor|].
  destruct (str_le a b) eqn:Hab.
  - by repeat constructor.
  - constructor; [done|].
    assert (str_rel b a) by (by destruct (str_le_total a b); [congruence|]).
    destruct Hb as [|c l Hbc]; simpl; [by constructor|].
    destruct (str_le a c); by constructor.
Qed.

Lemma sorted_Sorted l : Sorted str_rel (sorted l).
Proof.
  induction l as [|a l IH]; simpl; [constructor|].
  by apply insert_sorted_Sorted.
Qed.

(** The result of [sorted] is ordered and a permutation of its argument;
    so it does not depend on the order of the argument. *)
Lemma sorted_spec l l' :
  Sorted str_rel (sorted l) /\ sorted l ≡ₚ l
  /\ (l ≡ₚ l' -> sorted l = sorted l').
Proof.
  split; [apply sorted_Sorted|]. split; [apply sorted_perm|].
  intros H.
  apply (@Sorted_unique _ str_rel str_rel_trans str_rel_antisym);
    try apply sorted_Sorted.
  by rewrite !sorted_perm.
Qed.

End Sorting.

(** ** More on the parser *)

Section ParserMore.

Implicit Types (line text : pystr) (v : parse_vars) (lines : list pystr)
  (q : Question) (r : response).

Lemma getitem_head {A : Type} (x : A) (l : list A) : getitem (x :: l) 0 = Ok x.
Proof.
  unfold getitem. change (0 <? 0) with false. cbv beta iota.
  destruct (Z.leb_spec (Z.of_nat (length (x :: l))) 0) as [H|_].
  - simpl length in H. lia.
  - reflexivity.
Qed.

(** X1: [parse_response] raises [IndexError] on an empty list and [KeyError]
    when the first dict has no "generated_text"; otherwise its result is
    that of the text of the first dict alone, whatever else the dict and
    the list hold. *)
Theorem parse_response_first_candidate r :
  (r = [] -> parse_response r = Raise IndexError)
  /\ (forall d rest, r = d :: rest -> d !! lit "generated_text" = None ->
        parse_response r = Raise KeyError)
  /\ (forall d rest text, r = d :: rest ->
        d !! lit "generated_text" = Some text ->
        parse_response r = parse_response (generated text)).
Proof.
  split; [by intros ->|]. split.
  - intros d rest -> Hd. unfold parse_response, lookup_key.
    rewrite getitem_head. cbn [bind]. by rewrite Hd.
  - intros d rest text -> Hd. rewrite parse_response_generated.
    unfold parse_response, lookup_key.
    rewrite getitem_head. cbn [bind]. by rewrite Hd.
Qed.

Lemma parse_response_first_candidate_witness :
  parse_response [∅; <[lit "generated_text" := sample_text]> ∅]
  = Raise KeyError
  /\ parse_response [<[lit "generated_text" := sample_text]>
                       (<[lit "score" := lit "0.9"]> ∅); ∅]
     = parse_response (generated sample_text).
Proof.
  split.
  - destruct (parse_response_first_candidate
                [∅; <[lit "generated_text" := sample_text]> ∅])
      as (_ & H & _).
    apply (H ∅ [<[lit "generated_text" := sample_text]> ∅]);
      [reflexivity|by vm_compute].
  - destruct (parse_response_first_candidate
                [<[lit "generated_text" := sample_text]>
                   (<[lit "score" := lit "0.9"]> ∅); ∅])
      as (_ & _ & H).
    apply (H (<[lit "generated_text" := sample_text]>
                (<[lit "score" := lit "0.9"]> ∅)) [∅] sample_text);
      [reflexivity|by vm_compute].
Defined.

(** The branch of the loop body for the correct letter. *)
Lemma parse_line_correct v line :
  startswith (lit "Correct Answer:") line = true ->
  parse_line v line
  = Ok {| v_question := v_question v; v_options := v_options v;
          v_correct := strip (replace (lit "Correct Answer:") [] line) |}.
Proof.
  intros H. unfold parse_line.
  assert (startswith (lit "Question:") line = false
          /\ is_option_line line = false) as [-> ->].
  { rewrite (startswith_inv _ _ H). by split. }
  by rewrite H.
Qed.

Lemma parse_line_question_kept v line v' :
  startswith (lit "Question:") line = false ->
  parse_line v line = Ok v' -> v_question v' = v_question v.
Proof.
  unfold parse_line. intros ->.
  destruct (is_option_line line).
  - by intros (letter & _ & [= <-])%bind_Ok.
  - destruct (startswith (lit "Correct Answer:") line); by intros [= <-].
Qed.

Lemma parse_lines_question_kept lines v v' :
  Forall (fun line => startswith (lit "Question:") line = false) lines ->
  parse_lines lines v = Ok v' -> v_question v' = v_question v.
Proof.
  intros H. revert v. induction H as [|line rest Hl _ IH]; intros v; simpl.
  - by intros [= <-].
  - intros (v1 & H1 & H2)%bind_Ok.
    rewrite (IH _ H2). by eapply parse_line_question_kept.
Qed.

(** X2: the prompt is taken from the last line that starts with
    "Question:" and the correct letter from the last line that starts with
    "Correct Answer:", whatever lines come before: each is that line with
    every occurrence of its marker removed, trimmed. *)
Theorem last_prompt_and_answer_win pre line post v0 :
  (startswith (lit "Question:") line = true ->
   Forall (fun l => startswith (lit "Question:") l = false) post ->
   exists v, parse_lines (pre ++ line :: post) v0 = Ok v
     /\ v_question v = strip (replace (lit "Question:") [] line))
  /\ (startswith (lit "Correct Answer:") line = true ->
      Forall (fun l => startswith (lit "Correct Answer:") l = false) post ->
      exists v, parse_lines (pre ++ line :: post) v0 = Ok v
        /\ v_correct v = strip (replace (lit "Correct Answer:") [] line)).
Proof.
  destruct (parse_lines_total pre v0) as [v1 Hpre].
  rewrite (parse_lines_app _ _ _ _ Hpre). cbn [parse_lines].
  split; intros Hl Hpost.
  - unfold parse_line at 1. rewrite Hl. cbn [bind].
    match goal with
    | |- context [parse_lines post ?w] =>
        destruct (parse_lines_total post w) as [v Hv]
    end.
    exists v. split; [done|].
    by rewrite (parse_lines_question_kept _ _ _ Hpost Hv).
  - rewrite (parse_line_correct _ _ Hl). cbn [bind].
    match goal with
    | |- context [parse_lines post ?w] =>
        destruct (parse_lines_total post w) as [v Hv]
    end.
    exists v. split; [done|].
    by rewrite (parse_lines_correct_kept _ _ _ Hpost Hv).
Qed.

Lemma last_prompt_and_answer_win_witness :
  (exists v,
      parse_lines ([lit "Question: first?"] ++ lit "Question: second?"
                     :: [lit "A) 1"]) vars0 = Ok v
      /\ v_question v
         = strip (replace (lit "Question:") [] (lit "Question: second?")))
  /\ (exists v,
        parse_lines ([lit "Correct Answer: A"] ++ lit "Correct Answer: D"
                       :: [lit "done"]) vars0 = Ok v
        /\ v_correct v
           = strip (replace (lit "Correct Answer:") []
                      (lit "Correct Answer: D"))).
Proof.
  split.
  - apply (last_prompt_and_answer_win [lit "Question: first?"]
             (lit "Question: second?") [lit "A) 1"] vars0);
      [reflexivity|repeat constructor].
  - apply (last_prompt_and_answer_win [lit "Correct Answer: A"]
             (lit "Correct Answer: D") [lit "done"] vars0);
      [reflexivity|repeat constructor].
Defined.

End ParserMore.

(** ** Trimmed, one-line fields *)

Section Trimmed.

Implicit Types (s t old : pystr) (c x : char) (v : parse_vars) (q : Question).

Lemma lstrip_idem s : lstrip (lstrip s) = lstrip s.
Proof.
  induction s as [|c s IH]; [done|]. simpl.
  destruct (isspace c) eqn:E; [done|]. simpl. by rewrite E.
Qed.

Lemma lstrip_head s :
  lstrip s = [] \/ exists c t, lstrip s = c :: t /\ isspace c = false.
Proof.
  induction s as [|c s IH]; [by left|]. simpl.
  destruct (isspace c) eqn:E; [done|]. right. by exists c, s.
Qed.

Lemma lstrip_app_nonspace s c t :
  isspace c = false -> lstrip (s ++ c :: t) = lstrip s ++ c :: t.
Proof.
  intros Hc. induction s as [|a s IH]; simpl; [by rewrite Hc|].
  by destruct (isspace a).
Qed.

Lemma rstrip_cons_nonspace c t :
  isspace c = false -> rstrip (c :: t) = c :: rstrip t.
Proof.
  intros Hc. unfold rstrip. cbn [rev].
  rewrite lstrip_app_nonspace by done.
  by rewrite rev_app_distr.
Qed.

Lemma rstrip_idem s : rstrip (rstrip s) = rstrip s.
Proof. unfold rstrip. by rewrite rev_involutive, lstrip_idem. Qed.

(** [strip] of a stripped string changes nothing. *)
Lemma strip_trimmed s : trimmed (strip s).
Proof.
  unfold trimmed, strip.
  destruct (lstrip_head s) as [->|(c & t & -> & Hc)]; [done|].
  rewrite rstrip_cons_nonspace by done. cbn [lstrip]. rewrite Hc.
  rewrite rstrip_cons_nonspace by done. by rewrite rstrip_idem.
Qed.

Lemma lstrip_subseteq s : lstrip s ⊆ s.
Proof.
  induction s as [|c s IH]; [done|]. simpl.
  destruct (isspace c); [|done]. by apply list_subseteq_cons.
Qed.

Lemma elem_of_rev x s : x ∈ rev s <-> x ∈ s.
Proof. by rewrite !list_elem_of_In, <- in_rev. Qed.

Lemma strip_subseteq s : strip s ⊆ s.
Proof.
  unfold strip, rstrip. intros x Hx.
  apply lstrip_subseteq.
  apply (proj1 (elem_of_rev _ _)) in Hx. apply lstrip_subseteq in Hx.
  by apply (proj1 (elem_of_rev _ _)) in Hx.
Qed.

Lemma replace_from_subseteq n old s : replace_from n old [] s ⊆ s.
Proof.
  revert n. induction s as [|c s IH]; intros n; [done|].
  cbn [replace_from]. destruct n as [|n].
  - destruct (startswith old (c :: s)); cbn [app].
    + by apply list_subseteq_cons.
    + intros x [->|Hx]%elem_of_cons; [left|right]. by apply (IH O).
  - by apply list_subseteq_cons.
Qed.

Lemma replace_subseteq old s : replace old [] s ⊆ s.
Proof.
  destruct old as [|c old]; [|apply replace_from_subseteq].
  unfold replace. cbn [app].
  induction s as [|a s IH]; [done|]. cbn. by apply list_subseteq_skip.
Qed.

Lemma split_no_sep c s : Forall (fun l => c ∉ l) (split c s).
Proof.
  induction s as [|a s IH]; simpl.
  - repeat constructor. by intros ?%elem_of_nil.
  - destruct (N.eqb_spec a c) as [->|Hne].
    + constructor; [by intros ?%elem_of_nil|done].
    + destruct (split c s) as [|h t]; inversion IH as [|? ? Hh Ht]; subst.
      * repeat constructor. by intros [->|?%elem_of_nil]%elem_of_cons.
      * constructor; [|done]. by intros [->|?]%elem_of_cons.
Qed.

Lemma strip_field_ok s t : 10%N ∉ s -> t ⊆ s -> field_ok (strip t).
Proof.
  intros Hs Ht. split; [apply strip_trimmed|].
  intros Hx. apply Hs, Ht. by apply strip_subseteq.
Qed.

Lemma parse_line_fields v line v' :
  10%N ∉ line -> parse_line v line = Ok v' ->
  fields_ok (v_question v) (v_options v) (v_correct v) ->
  fields_ok (v_question v') (v_options v') (v_correct v').
Proof.
  intros Hl. unfold parse_line. intros H (Hq & Hc & Ho).
  destruct (startswith (lit "Question:") line).
  - injection H as <-. cbn [v_question v_options v_correct]. split; [|by split].
    apply (strip_field_ok line (replace (lit "Question:") [] line));
      [done|apply replace_subseteq].
  - destruct (is_option_line line).
    + apply bind_Ok in H as (letter & _ & [= <-]).
      split; [done|]. split; [done|]. cbn [v_question v_options v_correct]. intros k t.
      intros [[_ <-]|[_ Hk]]%lookup_insert_Some; [|by eapply Ho].
      apply (strip_field_ok line (from 2 line)); [done|apply subseteq_drop].
    + destruct (startswith (lit "Correct Answer:") line);
        injection H as <-; [|done].
      cbn [v_question v_options v_correct]. split; [done|]. split; [|done].
      apply (strip_field_ok line (replace (lit "Correct Answer:") [] line));
        [done|apply replace_subseteq].
Qed.

Lemma parse_lines_fields lines v v' :
  Forall (fun l => 10%N ∉ l) lines -> parse_lines lines v = Ok v' ->
  fields_ok (v_question v) (v_options v) (v_correct v) ->
  fields_ok (v_question v') (v_options v') (v_correct v').
Proof.
  intros H. revert v. induction H as [|line rest Hl _ IH]; intros v; simpl.
  - by intros [= <-].
  - intros (v1 & H1 & H2)%bind_Ok Hv.
    eapply IH; [exact H2|]. by eapply parse_line_fields.
Qed.

Lemma fallback_fields :
  fields_ok (question fallback_question) (options fallback_question)
    (correct_answer fallback_question).
Proof.
  assert (Hlit : forall w : string, strip (lit w) = lit w ->
                 bool_decide (10%N ∉ lit w) = true -> field_ok (lit w)).
  { intros w H1 H2. split; [done|]. by apply bool_decide_eq_true in H2. }
  split; [by apply Hlit|]. split; [by apply Hlit|].
  intros k t H. unfold fallback_question, options in H.
  repeat (apply lookup_insert_Some in H as [[_ <-]|[_ H]]; [by apply Hlit|]).
  by rewrite lookup_empty in H.
Qed.

(** X3: in every question the parser returns, the prompt, the correct
    letter and the text of each option are trimmed (stripping them again
    changes nothing) and hold no newline. *)
Theorem parsed_fields_trimmed text :
  exists q, parse_response (generated text) = Ok q
    /\ (trimmed (question q) /\ 10%N ∉ question q)
    /\ (trimmed (correct_answer q) /\ 10%N ∉ correct_answer q)
    /\ (forall k t, options q !! k = Some t -> trimmed t /\ 10%N ∉ t).
Proof.
  rewrite parse_response_generated.
  destruct (parse_text_cases text) as (v & Hv & ->).
  eexists. split; [reflexivity|].
  destruct (rejected v); [apply fallback_fields|].
  apply (parse_lines_fields _ _ _ (split_no_sep _ _) Hv).
  assert (field_ok []) by (split; [done|by intros ?%elem_of_nil]).
  split; [done|]. split; [done|]. cbn. intros k t.
  by rewrite lookup_empty.
Qed.

(** Every question the parser returns passes the test of line 73. *)
Lemma parse_text_question_ok text :
  exists q, parse_text text = Ok q /\ question_ok q.
Proof.
  destruct (parse_text_cases text) as (v & Hv & ->).
  eexists. split; [reflexivity|].
  destruct (rejected v) eqn:Hr.
  - split; [done|]. split; [done|]. apply fallback_keys.
  - apply rejected_false in Hr as (Hq & Hn & Hc).
    split; [done|]. split; [done|]. cbn.
    apply five_keys; [|done].
    eapply parse_lines_keys; [exact Hv|]. cbn. rewrite dom_empty_L.
    apply empty_subseteq.
Qed.

Lemma generate_question_question_ok (g : pystr -> pystr) (d : pystr) :
  exists q, generate_question (pipeline g) d = Ok q /\ question_ok q.
Proof.
  unfold generate_question, pipeline. rewrite parse_response_generated.
  apply parse_text_question_ok.
Qed.

(** X4: for every difficulty and whatever the language model writes,
    [generate_question] raises nothing and returns a question whose prompt
    and correct letter are not empty and whose options have exactly the
    keys A to E. *)
Theorem generate_question_ok (g : pystr -> pystr) (d : pystr) :
  exists q, generate_question (pipeline g) d = Ok q
    /\ question q <> [] /\ correct_answer q <> []
    /\ dom (options q) = letter_set /\ size (options q) = 5%nat.
Proof.
  destruct (generate_question_question_ok g d) as (q & Hq & H1 & H2 & H3).
  exists q. repeat split; try done.
  by rewrite <- size_dom, H3, letter_set_size.
Qed.

Lemma dict_keys_letters (m : gmap pystr pystr) :
  dom m = letter_set -> dict_keys m ≡ₚ letters.
Proof.
  intros Hd. apply NoDup_Permutation.
  - apply NoDup_fst_map_to_list.
  - apply (bool_decide_unpack _). by vm_compute.
  - intros x. unfold dict_keys.
    rewrite <- (elem_of_list_to_set (C:=gset pystr) x letters).
    fold letter_set. rewrite <- Hd, elem_of_dom.
    rewrite list_elem_of_fmap. split.
    + intros ([k t] & -> & H%elem_of_map_to_list). by exists t.
    + intros [t H]. exists (x, t). split; [done|].
      by apply elem_of_map_to_list.
Qed.

(** X5: the letters offered by the radio widget for a generated question
    are A, B, C, D, E in this order, whatever the order in which the option
    lines came in the text. *)
Theorem option_keys_generated (g : pystr -> pystr) (d : pystr) :
  exists q, generate_question (pipeline g) d = Ok q
    /\ option_keys q = [lit "A"; lit "B"; lit "C"; lit "D"; lit "E"].
Proof.
  destruct (generate_question_question_ok g d) as (q & Hq & _ & _ & Hd).
  exists q. split; [done|]. unfold option_keys.
  destruct (sorted_spec (dict_keys (options q)) letters) as (_ & _ & H).
  rewrite H; [by vm_compute|]. by apply dict_keys_letters.
Qed.

End Trimmed.

(** ** More on the ladder *)

Section LadderMore.

Implicit Types (d : pystr) (c : bool).

Lemma index_absent d (l : list pystr) : d ∉ l -> Py.index d l = Raise ValueError.
Proof.
  induction l as [|y l IH]; [done|].
  intros [Hne Hl]%not_elem_of_cons. simpl. unfold Py.eqb.
  rewrite bool_decide_eq_false_2 by congruence. by rewrite IH.
Qed.

(** X6: [adjust_difficulty] raises exactly when the current difficulty is
    not one of "easy", "medium", "hard", and what it raises then is
    [ValueError], for a correct and for an incorrect answer alike. *)
Theorem adjust_difficulty_off_ladder d c :
  (d ∉ difficulty_levels -> adjust_difficulty d c = Raise ValueError)
  /\ (forall e, adjust_difficulty d c = Raise e -> d ∉ difficulty_levels).
Proof.
  split.
  - intros H. unfold adjust_difficulty. by rewrite index_absent.
  - intros e He Hd.
    apply difficulty_levels_cases in Hd as [->|[->| ->]]; by destruct c.
Qed.

Lemma adjust_difficulty_off_ladder_witness :
  adjust_difficulty (lit "Medium") true = Raise ValueError
  /\ lit "Medium" ∉ difficulty_levels.
Proof.
  destruct (adjust_difficulty_off_ladder (lit "Medium") true) as [H1 H2].
  assert (H : adjust_difficulty (lit "Medium") true = Raise ValueError).
  { apply H1. apply (bool_decide_unpack _). by vm_compute. }
  split; [exact H|]. exact (H2 _ H).
Defined.

(** X7: away from the ends of the ladder a step up and a step down undo
    each other, and two steps in one direction reach the end of the ladder
    from every level. *)
Theorem adjust_difficulty_compose d :
  d ∈ difficulty_levels ->
  (d <> lit "hard" ->
   (do d1 <- adjust_difficulty d true; adjust_difficulty d1 false) = Ok d)
  /\ (d <> lit "easy" ->
      (do d1 <- adjust_difficulty d false; adjust_difficulty d1 true) = Ok d)
  /\ (do d1 <- adjust_difficulty d true; adjust_difficulty d1 true)
     = Ok (lit "hard")
  /\ (do d1 <- adjust_difficulty d false; adjust_difficulty d1 false)
     = Ok (lit "easy").
Proof.
  intros [->|[->| ->]]%difficulty_levels_cases; repeat split; done.
Qed.

Lemma adjust_difficulty_compose_witness :
  (do d1 <- adjust_difficulty (lit "medium") true; adjust_difficulty d1 false)
  = Ok (lit "medium")
  /\ (do d1 <- adjust_difficulty (lit "medium") false;
      adjust_difficulty d1 true) = Ok (lit "medium").
Proof.
  destruct (adjust_difficulty_compose (lit "medium")) as (H1 & H2 & _).
  - in_list.
  - split; [by apply H1|by apply H2].
Defined.

End LadderMore.

(** ** The session: what every reachable state satisfies *)

Section SessionMore.

Implicit Types (s : session_state) (inp : input) (q : Question)
  (d a : pystr) (g : pystr -> pystr) (qs : gmap Z entry).

Lemma total_points_empty : total_points ∅ = 0.
Proof. unfold total_points. by rewrite map_fold_empty. Qed.

Lemma total_points_insert qs (i : Z) e :
  qs !! i = None ->
  total_points (<[i := e]> qs) = e_Points_Awarded e + total_points qs.
Proof.
  intros H. unfold total_points.
  rewrite map_fold_insert_L; [done| |done]. intros. lia.
Qed.

Lemma points_awarded_range s c p :
  points_awarded s c = Ok p ->
  0 <= p <= 3 /\ (current_difficulty s = Some (lit "medium") -> p <= 2).
Proof.
  unfold points_awarded. destruct c; [|intros [= <-]; lia].
  intros (d & Hd & H)%bind_Ok.
  destruct (current_difficulty s) as [d0|]; [|done]. injection Hd as ->.
  apply scoring_values in H as [[-> ->]|[[-> ->]|[-> ->]]];
    (split; [lia|]); intros [= ]; lia.
Qed.

(** The "Submit Answer" handler, for any answer. *)
Lemma submit_answer_step q q0 a (k v : Z) d qs :
  d ∈ difficulty_levels ->
  exists p d',
    points_awarded
      (mkSession (Some true) (Some k) (Some v) (Some d) (Some qs) (Some q0))
      (Py.eqb a (correct_answer q)) = Ok p
    /\ adjust_difficulty d (Py.eqb a (correct_answer q)) = Ok d'
    /\ submit_answer q a
         (mkSession (Some true) (Some k) (Some v) (Some d) (Some qs) (Some q0))
       = Ok (mkSession (Some true) (Some (k + 1)) (Some (v + p)) (Some d')
               (Some (<[k + 1 := answer_entry q a d p]> qs)) None).
Proof.
  intros [->|[->| ->]]%difficulty_levels_cases;
    unfold submit_answer, points_awarded, answer_entry;
    destruct (Py.eqb a (correct_answer q));
    eexists _, _; (split; [reflexivity|split; reflexivity]).
Qed.

Lemma answer_entry_ok q a d p s :
  d ∈ difficulty_levels -> current_difficulty s = Some d ->
  points_awarded s (Py.eqb a (correct_answer q)) = Ok p ->
  entry_ok (answer_entry q a d p).
Proof.
  intros Hd Hs. unfold points_awarded, answer_entry, entry_ok, Py.eqb.
  rewrite Hs. cbn [attr bind e_Difficulty e_Result e_Your_Answer
                   e_Correct_Answer e_Points_Awarded].
  split; [done|]. case_bool_decide as Ha.
  - left. by repeat split.
  - right. injection H as <-. by repeat split.
Qed.

Lemma adjust_difficulty_stays d c d' :
  d ∈ difficulty_levels -> adjust_difficulty d c = Ok d' ->
  d' ∈ difficulty_levels.
Proof.
  intros [->|[->| ->]]%difficulty_levels_cases; destruct c;
    intros [= <-]; in_list.
Qed.

(** A run with no click on a test in progress with no question loaded. *)
Lemma run_once_loads inp g (k v : Z) d qs :
  click inp = NoButton -> model inp = pipeline g -> k < TOTAL_QUESTIONS ->
  exists q, question_ok q
    /\ run_once inp
         (mkSession (Some true) (Some k) (Some v) (Some d) (Some qs) None)
       = Ok (mkSession (Some true) (Some k) (Some v) (Some d) (Some qs)
               (Some q), false).
Proof.
  intros Hc Hm Hk. apply Z.ltb_lt in Hk.
  destruct (generate_question_question_ok g d) as (q & Hq & Hok).
  exists q. split; [done|].
  unfold run_once, st_button. simpl. rewrite Hk, Hc, Hm. simpl.
  by rewrite Hq.
Qed.

(** Runs in which the click, if any, is on no button of the page. *)
Lemma run_once_fresh inp :
  click inp <> StartTest ->
  run_once inp (mkSession (Some false) (Some 0) (Some 0) (Some (lit "medium"))
                  (Some ∅) None)
  = Ok (mkSession (Some false) (Some 0) (Some 0) (Some (lit "medium"))
          (Some ∅) None, false).
Proof.
  intros Hc. unfold run_once, st_button. by destruct (click inp).
Qed.

Lemma run_once_loaded inp q (k v : Z) d qs :
  click inp <> SubmitAnswer -> k < TOTAL_QUESTIONS ->
  run_once inp
    (mkSession (Some true) (Some k) (Some v) (Some d) (Some qs) (Some q))
  = Ok (mkSession (Some true) (Some k) (Some v) (Some d) (Some qs) (Some q),
        false).
Proof.
  intros Hc Hk. apply Z.ltb_lt in Hk.
  unfold run_once, st_button. simpl. rewrite Hk.
  by destruct (click inp).
Qed.

Lemma run_once_over inp (k v : Z) d qs oq :
  click inp <> RestartTest -> TOTAL_QUESTIONS <= k ->
  run_once inp (mkSession (Some true) (Some k) (Some v) (Some d) (Some qs) oq)
  = Ok (mkSession (Some true) (Some k) (Some v) (Some d) (Some qs) oq, false).
Proof.
  intros Hc Hk. apply Z.ltb_ge in Hk.
  unfold run_once, st_button. simpl. rewrite Hk.
  by destruct (click inp).
Qed.

(** The script reads the state through the initialisation only. *)
Lemma script_init inp s : script inp (init_session_state s) = script inp s.
Proof.
  unfold script, run_once.
  by destruct s as [[?|] [?|] [?|] [?|] [?|] ?].
Qed.

(** An interaction whose click is on no button of the page. *)
Lemma script_ineffective inp s :
  session_inv s -> effective inp s = false -> script inp s = Ok s.
Proof.
  intros Hs He. unfold script.
  destruct Hs as [|k v d qs oq Hk Hd Hd0 Hkeys Hent Hfirst Hv Hv1 Hv2 Hq Hend].
  - rewrite run_once_fresh; [done|].
    intros Hc. unfold effective in He. by rewrite Hc in He.
  - unfold effective in He. cbn [started current_question] in He.
    destruct (Z.lt_ge_cases k TOTAL_QUESTIONS) as [Hlt|Hge].
    + destruct (Hq Hlt) as (q & -> & _).
      rewrite run_once_loaded; [done| |done].
      intros Hc. rewrite Hc in He. apply Z.ltb_ge in He. lia.
    + rewrite run_once_over; [done| |done].
      intros Hc. rewrite Hc in He. apply Z.leb_gt in He. lia.
Qed.

(** The click on "Start Test". *)
Lemma script_start_ok inp g :
  click inp = StartTest -> model inp = pipeline g ->
  exists q, question_ok q
    /\ script inp (mkSession (Some false) (Some 0) (Some 0)
                     (Some (lit "medium")) (Some ∅) None)
       = Ok (mkSession (Some true) (Some 0) (Some 0) (Some (lit "medium"))
               (Some ∅) (Some q)).
Proof.
  intros Hc Hm.
  destruct (run_once_loads (no_click inp) g 0 0 (lit "medium") ∅)
    as (q & Hok & Hq); [done..|].
  exists q. split; [done|]. unfold script.
  assert (run_once inp (mkSession (Some false) (Some 0) (Some 0)
                          (Some (lit "medium")) (Some ∅) None)
          = Ok (mkSession (Some true) (Some 0) (Some 0) (Some (lit "medium"))
                  (Some ∅) None, true)) as ->.
  { unfold run_once, st_button. rewrite Hc. reflexivity. }
  cbn [bind snd fst]. by rewrite Hq.
Qed.

(** The click on "Submit Answer" on a test in progress, for any answer. *)
Lemma script_submit inp g q (k v : Z) d qs :
  click inp = SubmitAnswer -> model inp = pipeline g ->
  0 <= k < TOTAL_QUESTIONS -> d ∈ difficulty_levels ->
  let s := mkSession (Some true) (Some k) (Some v) (Some d) (Some qs)
             (Some q) in
  exists p d' oq,
    points_awarded s (Py.eqb (user_answer inp) (correct_answer q)) = Ok p
    /\ adjust_difficulty d (Py.eqb (user_answer inp) (correct_answer q))
       = Ok d'
    /\ script inp s
       = Ok (mkSession (Some true) (Some (k + 1)) (Some (v + p)) (Some d')
               (Some (<[k + 1 := answer_entry q (user_answer inp) d p]> qs))
               oq)
    /\ (k + 1 < TOTAL_QUESTIONS -> exists q', oq = Some q' /\ question_ok q')
    /\ (k + 1 = TOTAL_QUESTIONS -> oq = None).
Proof.
  intros Hc Hm Hk Hd s.
  destruct (submit_answer_step q q (user_answer inp) k v d qs Hd)
    as (p & d' & Hp & Hd' & Hsub).
  exists p, d'.
  assert (Hrun : run_once inp s
          = Ok (mkSession (Some true) (Some (k + 1)) (Some (v + p)) (Some d')
                  (Some (<[k + 1 := answer_entry q (user_answer inp) d p]> qs))
                  None, true)).
  { unfold run_once, st_button, s.
    cbn [init_session_state setdefault started current_question attr bind
         negb andb current_question_data].
    destruct Hk as [_ Hk]. apply Z.ltb_lt in Hk. rewrite Hk, Hc.
    cbn [button_eqb]. change (init_session_state ?x) with x.
    cbv beta iota. unfold s in Hsub.
    match goal with
    | |- context [submit_answer ?a ?b ?c] =>
        change (submit_answer a b c) with
          (submit_answer q (user_answer inp)
             (mkSession (Some true) (Some k) (Some v) (Some d) (Some qs)
                (Some q)))
    end.
    by rewrite Hsub. }
  unfold script. rewrite Hrun. cbn [bind snd fst].
  destruct (Z.lt_ge_cases (k + 1) TOTAL_QUESTIONS) as [Hlt|Hge].
  - destruct (run_once_loads (no_click inp) g (k + 1) (v + p) d'
                (<[k + 1 := answer_entry q (user_answer inp) d p]> qs))
      as (q' & Hok & Hq'); [done..|].
    rewrite Hq'. exists (Some q'). repeat split; try done.
    + intros _. by exists q'.
    + lia.
  - rewrite run_once_over by done.
    exists None. repeat split; try done. lia.
Qed.

(** The click on "Restart Test" on a completed test. *)
Lemma script_restart inp (k v : Z) d qs oq :
  click inp = RestartTest -> TOTAL_QUESTIONS <= k ->
  script inp (mkSession (Some true) (Some k) (Some v) (Some d) (Some qs) oq)
  = Ok (mkSession (Some false) (Some 0) (Some 0) (Some (lit "medium"))
          (Some ∅) None).
Proof.
  intros Hc Hk. apply Z.ltb_ge in Hk.
  unfold script, run_once, st_button. simpl. rewrite Hk, Hc. reflexivity.
Qed.

End SessionMore.

Section Reachable.

Implicit Types (s : session_state) (inp : input) (q : Question)
  (d a : pystr) (g : pystr -> pystr) (qs : gmap Z entry).

(** Every interaction keeps the invariant, and raises nothing. *)
Lemma script_inv inp g s :
  session_inv s -> model inp = pipeline g ->
  exists s', script inp s = Ok s' /\ session_inv s'.
Proof.
  intros Hs Hm.
  destruct (effective inp s) eqn:He.
  2: { exists s. split; [by apply script_ineffective|done]. }
  destruct Hs as [|k v d qs oq Hk Hd Hd0 Hkeys Hent Hfirst Hv Hv1 Hv2 Hq Hend].
  - assert (Hc : click inp = StartTest).
    { unfold effective in He. by destruct (click inp). }
    destruct (script_start_ok inp g Hc Hm) as (q & Hok & ->).
    eexists. split; [reflexivity|].
    apply inv_running.
    + unfold TOTAL_QUESTIONS. lia.
    + in_list.
    + done.
    + intros i. rewrite lookup_empty. split; [by intros []|lia].
    + intros i e. by rewrite lookup_empty.
    + intros e. by rewrite lookup_empty.
    + by rewrite total_points_empty.
    + lia.
    + lia.
    + intros _. by exists q.
    + done.
  - unfold effective in He. cbn [started current_question] in He.
    destruct (click inp) eqn:Hc; try done.
    + apply Z.ltb_lt in He.
      destruct (Hq He) as (q & -> & Hok).
      destruct (script_submit inp g q k v d qs Hc Hm) as
        (p & d' & oq & Hp & Hd' & Hscript & Hload & Hnone); [lia|done|].
      rewrite Hscript. eexists. split; [reflexivity|].
      destruct (points_awarded_range _ _ _ Hp) as [Hp3 Hp2].
      cbn [current_difficulty] in Hp2.
      assert (Hnew : qs !! (k + 1) = None).
      { apply eq_None_not_Some. rewrite Hkeys. lia. }
      apply inv_running.
      * lia.
      * by eapply adjust_difficulty_stays.
      * lia.
      * intros i. rewrite lookup_insert_is_Some, Hkeys.
        destruct (decide (k + 1 = i)); [|split; [intros [?|[_ ?]]|]]; lia.
      * intros i e [[_ <-]|[_ H]]%lookup_insert_Some; [|by eapply Hent].
        eapply answer_entry_ok; [exact Hd| |exact Hp]. reflexivity.
      * intros e [[Hk1 <-]|[_ H]]%lookup_insert_Some; [|by apply Hfirst].
        cbn. apply Hd0. lia.
      * rewrite total_points_insert by done. cbn. lia.
      * lia.
      * intros _. destruct (decide (k = 0)) as [->|].
        -- assert (p <= 2) by (apply Hp2; f_equal; by apply Hd0). lia.
        -- lia.
      * done.
      * done.
    + apply Z.leb_le in He.
      rewrite script_restart by done.
      eexists. split; [reflexivity|constructor].
Qed.

(** The first run of the script in a new session. *)
Lemma first_run_inv inp g s :
  model inp = pipeline g -> script inp no_keys = Ok s -> session_inv s.
Proof.
  intros Hm. rewrite <- script_init.
  change (init_session_state no_keys)
    with (mkSession (Some false) (Some 0) (Some 0) (Some (lit "medium"))
            (Some ∅) None).
  destruct (script_inv inp g _ inv_fresh Hm) as (s' & -> & Hs').
  by intros [= <-].
Qed.

Lemma reachable_inv s : reachable s -> session_inv s.
Proof.
  induction 1 as [inp g s Hm Hs|s inp g s' _ IH Hm Hs].
  - by eapply first_run_inv.
  - destruct (script_inv inp g s IH Hm) as (s'' & Hs'' & Hinv).
    rewrite Hs in Hs''. by injection Hs'' as ->.
Qed.

End Reachable.

(** ** Properties of the reachable states *)

Section ReachableProperties.

Implicit Types (s : session_state) (inp : input) (q : Question)
  (d a : pystr) (g : pystr -> pystr) (qs : gmap Z entry).

(** X8: with the pipeline as model, the script raises nothing, neither in
    the first run of a new session nor in any interaction from a reachable
    state: no key is read before it is set, no difficulty leaves the
    ladder, and the parser recovers from any generated text. *)
Theorem script_never_raises inp g :
  model inp = pipeline g ->
  (exists s0, script inp no_keys = Ok s0 /\ reachable s0)
  /\ (forall s, reachable s -> exists s', script inp s = Ok s' /\ reachable s').
Proof.
  intros Hm. split.
  - rewrite <- script_init.
    destruct (script_inv inp g _ inv_fresh Hm) as (s0 & Hs0 & _).
    exists s0. split; [exact Hs0|].
    apply (reachable_first inp g); [done|]. by rewrite <- script_init.
  - intros s Hs.
    destruct (script_inv inp g s (reachable_inv s Hs) Hm) as (s' & Hs' & _).
    exists s'. split; [done|]. by eapply reachable_step.
Qed.

Lemma script_never_raises_witness :
  exists s', script (sample_input SubmitAnswer (lit "A")) sample_started = Ok s'
    /\ reachable s'.
Proof.
  destruct (script_never_raises (sample_input SubmitAnswer (lit "A"))
              (fun _ => sample_text) eq_refl) as [_ H].
  apply H. reach_sample.
Defined.

(** X9: in every reachable state the question index is between 0 and 10,
    the difficulty is on the ladder, and the score is between 0 and three
    times the index, and at most 29; before the first answer the score is
    0 and the difficulty "medium". *)
Theorem reachable_bounds s :
  reachable s ->
  exists (k v : Z) d,
    current_question s = Some k /\ score s = Some v
    /\ current_difficulty s = Some d
    /\ 0 <= k <= TOTAL_QUESTIONS /\ 0 <= v <= 3 * k /\ v <= 29
    /\ d ∈ difficulty_levels
    /\ (k = 0 -> v = 0 /\ d = lit "medium").
Proof.
  intros [|k v d qs oq Hk Hd Hd0 _ _ _ _ Hv1 Hv2 _ _]%reachable_inv.
  - exists 0, 0, (lit "medium"). cbn. repeat split; try done; try lia.
    in_list.
  - exists k, v, d. cbn. unfold TOTAL_QUESTIONS in *.
    repeat split; try done; try lia. by apply Hd0.
Qed.

Lemma reachable_bounds_witness :
  exists (k v : Z) d,
    current_question sample_started = Some k /\ score sample_started = Some v
    /\ current_difficulty sample_started = Some d
    /\ 0 <= k <= TOTAL_QUESTIONS /\ 0 <= v <= 3 * k /\ v <= 29
    /\ d ∈ difficulty_levels
    /\ (k = 0 -> v = 0 /\ d = lit "medium").
Proof. apply (reachable_bounds sample_started). reach_sample. Defined.

(** X10: in a reachable state a question is loaded exactly while the test
    is in progress (started, with fewer than 10 answers), and that question
    has a prompt, a correct letter and the five options A to E; before the
    start and after the tenth answer none is loaded. *)
Theorem question_loaded_while_in_progress s :
  reachable s ->
  (started s = Some true
   /\ (exists k, current_question s = Some k /\ k < TOTAL_QUESTIONS)
   /\ (exists q, current_question_data s = Some q /\ question_ok q))
  \/ (current_question_data s = None
      /\ (started s = Some false
          \/ (started s = Some true
              /\ current_question s = Some TOTAL_QUESTIONS))).
Proof.
  intros [|k v d qs oq Hk _ _ _ _ _ _ _ _ Hq Hend]%reachable_inv.
  - right. cbn. auto.
  - destruct (Z.lt_ge_cases k TOTAL_QUESTIONS) as [Hlt|Hge].
    + left. cbn. split; [done|]. split; [by exists k|]. by apply Hq.
    + right. cbn. assert (k = TOTAL_QUESTIONS) as -> by lia.
      split; [by apply Hend|]. by right.
Qed.

Lemma question_loaded_while_in_progress_witness :
  (started sample_started = Some true
   /\ (exists k, current_question sample_started = Some k
                 /\ k < TOTAL_QUESTIONS)
   /\ (exists q, current_question_data sample_started = Some q
                 /\ question_ok q))
  \/ (current_question_data sample_started = None
      /\ (started sample_started = Some false
          \/ (started sample_started = Some true
              /\ current_question sample_started = Some TOTAL_QUESTIONS))).
Proof.
  apply (question_loaded_while_in_progress sample_started). reach_sample.
Defined.

(** X11: in a reachable state an interaction whose click is on no button
    of the page (in particular a rerun with no click) leaves the session
    state as it is, whatever the model would answer: the loaded question is
    not generated again, and after the tenth answer no answer is taken. *)
Theorem ineffective_click_changes_nothing s inp :
  reachable s -> effective inp s = false -> script inp s = Ok s.
Proof. intros Hs%reachable_inv. by apply script_ineffective. Qed.

Lemma ineffective_click_changes_nothing_witness :
  script {| click := NoButton; user_answer := lit "C"; model := fun _ => [] |}
    sample_started
  = Ok sample_started.
Proof.
  apply (ineffective_click_changes_nothing sample_started);
    [reach_sample|reflexivity].
Defined.

(** X12: in a reachable state with a question loaded, a click on "Submit
    Answer" with any answer moves the index on by one, adds to the score
    the points of the current difficulty when the answer equals the correct
    letter and nothing otherwise, moves the difficulty one step up or down
    the ladder accordingly, and records the row under the new index. *)
Theorem submit_any_answer s inp g q :
  reachable s -> click inp = SubmitAnswer -> model inp = pipeline g ->
  current_question_data s = Some q ->
  exists (k v p : Z) d d' qs s',
    current_question s = Some k /\ k < TOTAL_QUESTIONS
    /\ score s = Some v /\ current_difficulty s = Some d
    /\ questions s = Some qs
    /\ (if Py.eqb (user_answer inp) (correct_answer q)
        then lookup_key scoring d = Ok p else p = 0)
    /\ adjust_difficulty d (Py.eqb (user_answer inp) (correct_answer q))
       = Ok d'
    /\ script inp s = Ok s'
    /\ started s' = Some true
    /\ current_question s' = Some (k + 1)
    /\ score s' = Some (v + p)
    /\ current_difficulty s' = Some d'
    /\ questions s'
       = Some (<[k + 1 := answer_entry q (user_answer inp) d p]> qs).
Proof.
  intros Hs Hc Hm Hq. apply reachable_inv in Hs.
  destruct Hs as [|k v d qs oq Hk Hd _ _ _ _ _ _ _ _ Hend]; [done|].
  cbn in Hq. subst oq.
  assert (Hlt : k < TOTAL_QUESTIONS).
  { destruct (Z.lt_ge_cases k TOTAL_QUESTIONS) as [|Hge]; [done|].
    assert (k = TOTAL_QUESTIONS) as Hk10 by lia. by apply Hend in Hk10. }
  destruct (script_submit inp g q k v d qs Hc Hm) as
    (p & d' & oq & Hp & Hd' & Hscript & _); [lia|done|].
  exists k, v, p, d, d', qs. eexists.
  cbn [current_question score current_difficulty questions].
  repeat (split; [done|]). split.
  { unfold points_awarded in Hp.
    destruct (Py.eqb (user_answer inp) (correct_answer q)); [done|].
    by injection Hp as <-. }
  split; [done|]. split; [exact Hscript|]. by cbn.
Qed.

Lemma submit_any_answer_witness :
  exists (k v p : Z) d d' qs s',
    current_question sample_started = Some k /\ k < TOTAL_QUESTIONS
    /\ score sample_started = Some v
    /\ current_difficulty sample_started = Some d
    /\ questions sample_started = Some qs
    /\ (if Py.eqb (lit "A") (correct_answer sample_question)
        then lookup_key scoring d = Ok p else p = 0)
    /\ adjust_difficulty d
         (Py.eqb (lit "A") (correct_answer sample_question)) = Ok d'
    /\ script (sample_input SubmitAnswer (lit "A")) sample_started = Ok s'
    /\ started s' = Some true
    /\ current_question s' = Some (k + 1)
    /\ score s' = Some (v + p)
    /\ current_difficulty s' = Some d'
    /\ questions s'
       = Some (<[k + 1 := answer_entry sample_question (lit "A") d p]> qs).
Proof.
  apply (submit_any_answer sample_started
           (sample_input SubmitAnswer (lit "A")) (fun _ => sample_text)
           sample_question); [reach_sample|reflexivity..].
Defined.

(** X13: in every reachable state the rows of the summary table are
    recorded under exactly the numbers 1 to the question index, each row
    agrees with itself (points of its difficulty for a correct answer, 0
    for an incorrect one), and the score is the total of the column
    "Points Awarded". *)
Theorem summary_table_consistent s :
  reachable s ->
  exists (k v : Z) qs,
    current_question s = Some k /\ score s = Some v /\ questions s = Some qs
    /\ (forall i : Z, is_Some (qs !! i) <-> 1 <= i <= k)
    /\ (forall i e, qs !! i = Some e -> entry_ok e)
    /\ v = total_points qs.
Proof.
  intros [|k v d qs oq _ _ _ Hkeys Hent _ Hv _ _ _ _]%reachable_inv.
  - exists 0, 0, ∅. cbn. do 3 (split; [done|]). split; [|split].
    + intros i. rewrite lookup_empty. split; [by intros []|lia].
    + intros i e. by rewrite lookup_empty.
    + by rewrite total_points_empty.
  - exists k, v, qs. cbn. by do 5 (split; [done|]).
Qed.

Lemma summary_table_consistent_witness :
  exists (k v : Z) qs,
    current_question sample_started = Some k
    /\ score sample_started = Some v /\ questions sample_started = Some qs
    /\ (forall i : Z, is_Some (qs !! i) <-> 1 <= i <= k)
    /\ (forall i e, qs !! i = Some e -> entry_ok e)
    /\ v = total_points qs.
Proof. apply (summary_table_consistent sample_started). reach_sample. Defined.

End ReachableProperties.

Section History.

Implicit Types (s : session_state) (inp : input) (q : Question)
  (d a : pystr) (g : pystr -> pystr) (qs : gmap Z entry).

(** X14: an interaction from a reachable state either is the restart of a
    completed test, which gives back the initial state, or keeps every
    recorded row as it is and moves the question index on by at most
    one. *)
Theorem records_kept s inp g s' :
  reachable s -> model inp = pipeline g -> script inp s = Ok s' ->
  exists (k : Z) qs,
    current_question s = Some k /\ questions s = Some qs
    /\ ((click inp = RestartTest /\ k = TOTAL_QUESTIONS
         /\ s' = init_session_state no_keys)
        \/ (exists (k' : Z) qs',
              current_question s' = Some k' /\ questions s' = Some qs'
              /\ k <= k' <= k + 1 /\ qs ⊆ qs')).
Proof.
  intros Hs%reachable_inv Hm Hscript.
  destruct (effective inp s) eqn:He.
  2: { rewrite (script_ineffective _ _ Hs He) in Hscript.
       injection Hscript as <-.
       destruct Hs as [|k v d qs oq]; eexists _, _;
         (split; [reflexivity|split; [reflexivity|]]); right;
         eexists _, _; (split; [reflexivity|split; [reflexivity|]]);
         (split; [lia|done]). }
  destruct Hs as [|k v d qs oq Hk Hd _ Hkeys _ _ _ _ _ Hq _].
  - assert (Hc : click inp = StartTest).
    { unfold effective in He. by destruct (click inp). }
    destruct (script_start_ok inp g Hc Hm) as (q & _ & Hq).
    rewrite Hq in Hscript. injection Hscript as <-.
    exists 0, ∅. split; [done|]. split; [done|]. right.
    exists 0, ∅. cbn. repeat split; try done; lia.
  - unfold effective in He. cbn [started current_question] in He.
    exists k, qs. split; [done|]. split; [done|].
    destruct (click inp) eqn:Hc; try done.
    + apply Z.ltb_lt in He. destruct (Hq He) as (q & -> & _).
      destruct (script_submit inp g q k v d qs Hc Hm) as
        (p & d' & oq & _ & _ & Hstep & _); [lia|done|].
      rewrite Hstep in Hscript. injection Hscript as <-.
      right. eexists _, _. cbn. split; [done|]. split; [done|].
      split; [lia|]. apply insert_subseteq.
      apply eq_None_not_Some. rewrite Hkeys. lia.
    + apply Z.leb_le in He.
      rewrite script_restart in Hscript by done. injection Hscript as <-.
      left. repeat split; try done. lia.
Qed.

Lemma records_kept_witness :
  exists (k : Z) qs,
    current_question sample_started = Some k
    /\ questions sample_started = Some qs
    /\ ((click (sample_input SubmitAnswer (lit "A")) = RestartTest
         /\ k = TOTAL_QUESTIONS
         /\ sample_after_wrong = init_session_state no_keys)
        \/ (exists (k' : Z) qs',
              current_question sample_after_wrong = Some k'
              /\ questions sample_after_wrong = Some qs'
              /\ k <= k' <= k + 1 /\ qs ⊆ qs')).
Proof.
  apply (records_kept sample_started (sample_input SubmitAnswer (lit "A"))
           (fun _ => sample_text) sample_after_wrong);
    [reach_sample|reflexivity|by vm_compute].
Defined.

(** X15: for the score of a reachable state, [plot_score] draws the bars
    "Your Score", "Min Score" and "Max Score" with the heights score, 10 and
    30, and the first bar is at least 0 and strictly below the third. *)
Theorem plot_score_bars s (v : Z) :
  reachable s -> score s = Some v ->
  exists your lowest highest,
    plot_score v
    = ([lit "Your Score"; lit "Min Score"; lit "Max Score"],
       [your; lowest; highest])
    /\ your = v /\ lowest = 10 /\ highest = 30 /\ 0 <= your < highest.
Proof.
  intros Hs%reachable_inv Hv. exists v, 10, 30.
  split; [done|]. do 3 (split; [done|]).
  destruct Hs as [|k v' d qs oq Hk _ _ _ _ _ _ Hv1 Hv2 _ _]; cbn in Hv;
    injection Hv as <-; [lia|].
  unfold TOTAL_QUESTIONS in Hk. lia.
Qed.

Lemma plot_score_bars_witness :
  exists your lowest highest,
    plot_score 0
    = ([lit "Your Score"; lit "Min Score"; lit "Max Score"],
       [your; lowest; highest])
    /\ your = 0 /\ lowest = 10 /\ highest = 30 /\ 0 <= your < highest.
Proof.
  apply (plot_score_bars sample_after_wrong 0); [|reflexivity].
  apply (reachable_step sample_started (sample_input SubmitAnswer (lit "A"))
           (fun _ => sample_text)); [reach_sample|reflexivity|by vm_compute].
Defined.

Lemma option_keys_elem q x : x ∈ option_keys q <-> x ∈ dom (options q).
Proof.
  unfold option_keys, dict_keys.
  destruct (sorted_spec (map_to_list (options q)).*1 []) as (_ & Hp & _).
  rewrite Hp, elem_of_dom, list_elem_of_fmap. split.
  - intros ([k t] & -> & H%elem_of_map_to_list). by exists t.
  - intros [t H]. exists (x, t). split; [done|].
    by apply elem_of_map_to_list.
Qed.

(** X16: the parser does not check that the correct letter is one of the
    option letters.  In a reachable state whose loaded question has a
    correct letter that the radio does not offer, every answer that the
    radio offers is recorded as incorrect: the score stays and the
    difficulty goes one step down. *)
Theorem unoffered_letter_never_correct s inp g q :
  reachable s -> click inp = SubmitAnswer -> model inp = pipeline g ->
  current_question_data s = Some q ->
  correct_answer q ∉ option_keys q -> user_answer inp ∈ option_keys q ->
  exists d d' s',
    current_difficulty s = Some d
    /\ adjust_difficulty d false = Ok d'
    /\ script inp s = Ok s'
    /\ score s' = score s
    /\ current_difficulty s' = Some d'.
Proof.
  intros Hs Hc Hm Hq Hno Hyes. apply reachable_inv in Hs.
  destruct Hs as [|k v d qs oq Hk Hd _ _ _ _ _ _ _ _ Hend]; [done|].
  cbn in Hq. subst oq.
  assert (Hlt : k < TOTAL_QUESTIONS).
  { destruct (Z.lt_ge_cases k TOTAL_QUESTIONS) as [|Hge]; [done|].
    assert (k = TOTAL_QUESTIONS) as Hk10 by lia. by apply Hend in Hk10. }
  destruct (script_submit inp g q k v d qs Hc Hm) as
    (p & d' & oq & Hp & Hd' & Hscript & _); [lia|done|].
  assert (Hne : Py.eqb (user_answer inp) (correct_answer q) = false).
  { unfold Py.eqb. apply bool_decide_eq_false_2. congruence. }
  rewrite Hne in Hp, Hd'. injection Hp as <-.
  exists d, d'. eexists. split; [done|]. split; [done|].
  split; [exact Hscript|]. cbn. split; [f_equal; lia|done].
Qed.

End History.

Section Uniform.

Implicit Types (s : session_state) (inp : input) (q : Question)
  (d a : pystr) (g : pystr -> pystr) (qs : gmap Z entry).

Lemma unoffered_letter_never_correct_witness :
  exists d d' s',
    Some (lit "medium") = Some d
    /\ adjust_difficulty d false = Ok d'
    /\ script {| click := SubmitAnswer; user_answer := lit "B";
                 model := pipeline (fun _ => bracket_text) |}
         (mkSession (Some true) (Some 0) (Some 0) (Some (lit "medium"))
            (Some ∅) (Some bracket_question)) = Ok s'
    /\ score s' = Some 0
    /\ current_difficulty s' = Some d'.
Proof.
  apply (unoffered_letter_never_correct
           (mkSession (Some true) (Some 0) (Some 0) (Some (lit "medium"))
              (Some ∅) (Some bracket_question))
           {| click := SubmitAnswer; user_answer := lit "B";
              model := pipeline (fun _ => bracket_text) |}
           (fun _ => bracket_text) bracket_question).
  - apply (reachable_first
             {| click := StartTest; user_answer := [];
                model := pipeline (fun _ => bracket_text) |}
             (fun _ => bracket_text)); [reflexivity|by vm_compute].
  - reflexivity.
  - reflexivity.
  - reflexivity.
  - in_list.
  - in_list.
Defined.




End Uniform.

Section WholeText.

Implicit Types (line text q a b c d e answer : pystr) (v : parse_vars)
  (lines : list pystr).

Lemma parse_line_unmarked v line :
  unmarked line = true -> parse_line v line = Ok v.
Proof.
  unfold unmarked, parse_line.
  intros [[Hq Ho]%andb_prop Hc]%andb_prop.
  apply negb_true_iff in Hq, Ho, Hc. by rewrite Hq, Ho, Hc.
Qed.

(** X18: the lines that start with none of the markers can be taken out
    of the text, or put in, anywhere: the loop ends with the same three
    variables. *)
Theorem unmarked_lines_dropped lines v :
  parse_lines (filter (fun line => unmarked line = false) lines) v
  = parse_lines lines v.
Proof.
  revert v. induction lines as [|line rest IH]; intros v; [done|].
  rewrite filter_cons. destruct (unmarked line) eqn:Hu.
  - rewrite decide_False by done. cbn [parse_lines].
    rewrite (parse_line_unmarked v line Hu). cbn [bind]. apply IH.
  - rewrite decide_True by done. cbn [parse_lines].
    destruct (parse_line v line); cbn [bind]; [apply IH|done].
Qed.

(** X19: a text in the format of the docstring (the seven lines in that
    order, without a newline inside a line) is returned as written: the
    prompt and the correct letter are their lines with every occurrence of
    the marker removed and trimmed, the options are the texts after the
    two characters of the marker, trimmed; provided that the prompt and
    the correct letter are not empty then. *)
Theorem parse_expected_format q a b c d e answer :
  10%N ∉ q -> 10%N ∉ a -> 10%N ∉ b -> 10%N ∉ c -> 10%N ∉ d -> 10%N ∉ e ->
  10%N ∉ answer ->
  strip (replace (lit "Question:") [] q) <> [] ->
  strip (replace (lit "Correct Answer:") [] answer) <> [] ->
  parse_response (generated (formatted q a b c d e answer))
  = Ok {| question := strip (replace (lit "Question:") [] q);
          options := list_to_map
            [(lit "A", strip a); (lit "B", strip b); (lit "C", strip c);
             (lit "D", strip d); (lit "E", strip e)];
          correct_answer := strip (replace (lit "Correct Answer:") [] answer) |}.
Proof.
  intros Hq Ha Hb Hc Hd He Hanswer Hne Hne'.
  rewrite parse_response_generated. unfold parse_text, formatted.
  rewrite split_join_lines; [|done|].
  2: { repeat (apply Forall_cons; split;
                 [apply lit_no_newline; [reflexivity|done]|]).
       done. }
  cbn [parse_lines].
  rewrite parse_line_question. cbn [bind].
  rewrite (parse_line_option (lit "A")); [|in_list|reflexivity]. next_line.
  rewrite (parse_line_option (lit "B")); [|in_list|reflexivity]. next_line.
  rewrite (parse_line_option (lit "C")); [|in_list|reflexivity]. next_line.
  rewrite (parse_line_option (lit "D")); [|in_list|reflexivity]. next_line.
  rewrite (parse_line_option (lit "E")); [|in_list|reflexivity]. next_line.
  rewrite parse_line_correct by apply startswith_app. next_line.
  assert (Hrep : replace (lit "Correct Answer:") []
                  (lit "Correct Answer:" ++ answer)
                = replace (lit "Correct Answer:") [] answer).
  { change (lit "Correct Answer:") with (67%N :: lit "orrect Answer:").
    by rewrite replace_head. }
  rewrite Hrep. clear Hrep.
  change (from 2 (lit "A)" ++ a)) with a. change (from 2 (lit "B)" ++ b)) with b.
  change (from 2 (lit "C)" ++ c)) with c. change (from 2 (lit "D)" ++ d)) with d.
  change (from 2 (lit "E)" ++ e)) with e.
  revert Hne Hne'.
  generalize (strip (replace (lit "Question:") [] q)),
    (strip (replace (lit "Correct Answer:") [] answer)),
    (strip a), (strip b), (strip c), (strip d), (strip e).
  intros q' w' a' b' c' d' e' Hne Hne'.
  assert (Heq : <[lit "E":=e']> (<[lit "D":=d']> (<[lit "C":=c']>
                  (<[lit "B":=b']> (<[lit "A":=a']> (v_options vars0)))))
                = list_to_map [(lit "A", a'); (lit "B", b'); (lit "C", c');
                               (lit "D", d'); (lit "E", e')] :> gmap pystr pystr)
    by (by vm_compute).
  rewrite Heq. clear Heq.
  assert (Hr : rejected
            {| v_question := q';
               v_options := list_to_map [(lit "A", a'); (lit "B", b');
                 (lit "C", c'); (lit "D", d'); (lit "E", e')];
               v_correct := w' |} = false).
  { apply rejected_false. cbn [v_question v_correct v_options].
    split; [done|]. split; [|done]. by vm_compute. }
  by rewrite Hr.
Qed.

Lemma parse_expected_format_witness :
  parse_response (generated sample_text)
  = Ok {| question := strip (replace (lit "Question:") [] (lit " What is 1 + 1?"));
          options := list_to_map
            [(lit "A", strip (lit " 1")); (lit "B", strip (lit " 2 "));
             (lit "C", strip (lit " 3")); (lit "D", strip (lit " 4"));
             (lit "E", strip (lit "  5"))];
          correct_answer := strip (replace (lit "Correct Answer:") [] (lit " B")) |}.
Proof.
  apply (parse_expected_format (lit " What is 1 + 1?") (lit " 1") (lit " 2 ")
           (lit " 3") (lit " 4") (lit "  5") (lit " B"));
    try in_list; by vm_compute.
Defined.

End WholeText.
